(** * binance_discord_trading_bot.py: the strategy state machine

    A shallow embedding of [src/binance_discord_trading_bot.py] and the
    properties of its "buy-the-dip, trail-the-rise" strategy.

    Modelling conventions.
    - Python [float] values (prices, quantities, budgets, percentages) are
      exact rationals [Q]; rounding, infinities and NaN are outside the
      model.  Comparisons are the boolean tests [Qle_bool] / [Qlt_bool].
    - [BotState.positions] (a [dict] keyed by symbol) is a
      [gmap string Position.t].
    - The process is a [Machine]: the in-memory [BotState], the state file
      on disk, the fields of [TradingBot], and an oracle that decides
      which of the coming file writes fail.  Code runs in the monad [M],
      which threads the machine, collects the orders sent to the
      exchange, and may raise a Python exception; the machine at the
      point of the raise is kept, as in Python.
    - Every answer of the exchange is an input ([Env]).
    - A price tick and a chat command each run to completion before the
      next one starts (the single critical section of the design);
      commands that would run while [on_price] waits for the exchange
      are outside the model. *)

From Stdlib Require Import QArith Lqa.
From stdpp Require Import gmap strings list fin_maps.

Local Open Scope string_scope.

(** ** Numbers *)

Definition Qlt_bool (a b : Q) : bool := negb (Qle_bool b a).

(** Python's [max(a, b)]: the first argument unless the second is
    strictly greater. *)
Definition py_max (a b : Q) : Q := if Qlt_bool a b then b else a.

(** ** Helper dataclasses *)

Module Parameters.
Record t := mk {
  symbol : string;
  decrease_pct : Q;
  increase_pct : Q;
  tx_amount : Q;
  allocated_budget : Q
}.

(** [Parameters()]: the dataclass defaults. *)
Definition default : t :=
  mk "BTCUSDT" (2 # 100) (3 # 100) 50 500.

Definition set_symbol (s : string) (p : t) : t :=
  mk s (decrease_pct p) (increase_pct p) (tx_amount p) (allocated_budget p).
Definition set_decrease_pct (x : Q) (p : t) : t :=
  mk (symbol p) x (increase_pct p) (tx_amount p) (allocated_budget p).
Definition set_increase_pct (x : Q) (p : t) : t :=
  mk (symbol p) (decrease_pct p) x (tx_amount p) (allocated_budget p).
Definition set_tx_amount (x : Q) (p : t) : t :=
  mk (symbol p) (decrease_pct p) (increase_pct p) x (allocated_budget p).
Definition set_allocated_budget (x : Q) (p : t) : t :=
  mk (symbol p) (decrease_pct p) (increase_pct p) (tx_amount p) x.
End Parameters.

Module Position.
Record t := mk {
  symbol : string;
  quantity : Q;
  buy_price : Q;
  highest_price : Q;
  entry_time : string
}.

Definition set_highest_price (x : Q) (p : t) : t :=
  mk (symbol p) (quantity p) (buy_price p) x (entry_time p).
End Position.

Record BotState := mkBotState {
  params : Parameters.t;
  remaining_budget : Q;
  positions : gmap string Position.t;
  last_reference_price : option Q;
  running : bool
}.

(** [BotState()]: the dataclass defaults. *)
Definition BotState_default : BotState :=
  mkBotState Parameters.default 0 ∅ None false.

Definition with_params (p : Parameters.t) (s : BotState) : BotState :=
  mkBotState p (remaining_budget s) (positions s) (last_reference_price s) (running s).
Definition with_remaining_budget (b : Q) (s : BotState) : BotState :=
  mkBotState (params s) b (positions s) (last_reference_price s) (running s).
Definition with_positions (m : gmap string Position.t) (s : BotState) : BotState :=
  mkBotState (params s) (remaining_budget s) m (last_reference_price s) (running s).
Definition with_last_reference_price (r : option Q) (s : BotState) : BotState :=
  mkBotState (params s) (remaining_budget s) (positions s) r (running s).
Definition with_running (b : bool) (s : BotState) : BotState :=
  mkBotState (params s) (remaining_budget s) (positions s) (last_reference_price s) b.

(** ** JSON documents

    What [json.dump] writes and [json.load] reads.  A [JObj] lists the
    items of the parsed [dict]. *)

Local Unset Elimination Schemes.
Inductive json :=
| JNull
| JBool (b : bool)
| JNum (q : Q)
| JStr (s : string)
| JArr (l : list json)
| JObj (items : list (string * json)).
Local Set Elimination Schemes.

(** [d.get(k)] on the items of a dict. *)
Fixpoint jget (k : string) (items : list (string * json)) : option json :=
  match items with
  | [] => None
  | (k', v) :: rest => if String.eqb k k' then Some v else jget k rest
  end.

(** ** Exceptions and results *)

Inductive exn :=
| OSError              (* the state file cannot be opened or written *)
| JSONDecodeError      (* the state file does not hold a JSON document *)
| TypeError            (* a dataclass constructor rejects its keywords *)
| ZeroDivisionError
| KeyError
| RuntimeError         (* create_binance_client: keys missing *)
| BinanceAPIException
| CancelledError       (* asyncio.CancelledError *)
| OtherError.          (* any other Exception, e.g. a network failure *)

Inductive result (A : Type) :=
| Ok (a : A)
| Raise (e : exn).
Arguments Ok {A} a.
Arguments Raise {A} e.

Definition rbind {A B} (c : result A) (k : A -> result B) : result B :=
  match c with
  | Ok a => k a
  | Raise e => Raise e
  end.

Notation "'let?' x := c 'in' k" := (rbind c (fun x => k))
  (at level 10, x name, c at level 100, k at level 200).

(** ** Persistence: the document of [save_state] and its reading by
    [load_state] *)

Definition json_of_option_num (o : option Q) : json :=
  match o with
  | None => JNull
  | Some q => JNum q
  end.

(** [asdict(state.params)] *)
Definition Parameters_asdict (p : Parameters.t) : json :=
  JObj [ ("symbol", JStr (Parameters.symbol p));
         ("decrease_pct", JNum (Parameters.decrease_pct p));
         ("increase_pct", JNum (Parameters.increase_pct p));
         ("tx_amount", JNum (Parameters.tx_amount p));
         ("allocated_budget", JNum (Parameters.allocated_budget p)) ].

(** [asdict(v)] for a position *)
Definition Position_asdict (v : Position.t) : json :=
  JObj [ ("symbol", JStr (Position.symbol v));
         ("quantity", JNum (Position.quantity v));
         ("buy_price", JNum (Position.buy_price v));
         ("highest_price", JNum (Position.highest_price v));
         ("entry_time", JStr (Position.entry_time v)) ].

(** The dict [serializable] built by [save_state]. *)
Definition serializable (state : BotState) : json :=
  JObj [ ("params", Parameters_asdict (params state));
         ("remaining_budget", JNum (remaining_budget state));
         ("positions",
           JObj (map (fun kv => (kv.1, Position_asdict kv.2))
                     (map_to_list (positions state))));
         ("last_reference_price",
           json_of_option_num (last_reference_price state));
         ("running", JBool (running state)) ].

(** The dataclasses do not check the types of their fields; the records
    here are typed, so a document whose value has another JSON type than
    the annotation is rejected with [TypeError]. *)
Definition as_num (j : json) : result Q :=
  match j with JNum q => Ok q | _ => Raise TypeError end.
Definition as_str (j : json) : result string :=
  match j with JStr s => Ok s | _ => Raise TypeError end.
Definition as_bool (j : json) : result bool :=
  match j with JBool b => Ok b | _ => Raise TypeError end.
Definition as_items (j : json) : result (list (string * json)) :=
  match j with JObj items => Ok items | _ => Raise TypeError end.
Definition as_option_num (j : json) : result (option Q) :=
  match j with
  | JNull => Ok None
  | JNum q => Ok (Some q)
  | _ => Raise TypeError
  end.

(** A keyword argument that is not a field is a [TypeError]. *)
Definition known_keys (names : list string) (items : list (string * json)) : bool :=
  forallb (fun kv => existsb (String.eqb kv.1) names) items.

(** A field with a default: the keyword if given, the default otherwise. *)
Definition keyword {A} (conv : json -> result A) (k : string) (dflt : A)
    (items : list (string * json)) : result A :=
  match jget k items with
  | Some j => conv j
  | None => Ok dflt
  end.

(** A field without default: a missing keyword is a [TypeError]. *)
Definition required {A} (conv : json -> result A) (k : string)
    (items : list (string * json)) : result A :=
  match jget k items with
  | Some j => conv j
  | None => Raise TypeError
  end.

(** [Parameters] built from the keywords [d] *)
Definition Parameters_of_dict (d : list (string * json)) : result Parameters.t :=
  if known_keys ["symbol"; "decrease_pct"; "increase_pct"; "tx_amount";
                 "allocated_budget"] d
  then
    let? s := keyword as_str "symbol" (Parameters.symbol Parameters.default) d in
    let? dp := keyword as_num "decrease_pct" (Parameters.decrease_pct Parameters.default) d in
    let? ip := keyword as_num "increase_pct" (Parameters.increase_pct Parameters.default) d in
    let? tx := keyword as_num "tx_amount" (Parameters.tx_amount Parameters.default) d in
    let? ab := keyword as_num "allocated_budget" (Parameters.allocated_budget Parameters.default) d in
    Ok (Parameters.mk s dp ip tx ab)
  else Raise TypeError.

(** [Position] built from the keywords [v] *)
Definition Position_of_dict (v : list (string * json)) : result Position.t :=
  if known_keys ["symbol"; "quantity"; "buy_price"; "highest_price";
                 "entry_time"] v
  then
    let? s := required as_str "symbol" v in
    let? q := required as_num "quantity" v in
    let? bp := required as_num "buy_price" v in
    let? hp := required as_num "highest_price" v in
    let? et := required as_str "entry_time" v in
    Ok (Position.mk s q bp hp et)
  else Raise TypeError.

(** The dict comprehension over [positions_raw.items()] *)
Fixpoint positions_of_items (items : list (string * json))
    : result (gmap string Position.t) :=
  match items with
  | [] => Ok ∅
  | (k, v) :: rest =>
      let? d := as_items v in
      let? p := Position_of_dict d in
      let? m := positions_of_items rest in
      Ok (<[k := p]> m)
  end.

(** The body of [load_state] once [json.load] has produced [raw]. *)
Definition state_of_raw (raw : json) : result BotState :=
  let? r := as_items raw in
  let? pd := match jget "params" r with
             | Some j => as_items j
             | None => Ok []
             end in
  let? params := Parameters_of_dict pd in
  let? positions_raw := match jget "positions" r with
                        | Some j => as_items j
                        | None => Ok []
                        end in
  let? positions := positions_of_items positions_raw in
  let? rb := keyword as_num "remaining_budget"
               (Parameters.allocated_budget params) r in
  let? lrp := keyword as_option_num "last_reference_price" None r in
  let? run := keyword as_bool "running" false r in
  Ok (mkBotState params rb positions lrp run).

(** ** The machine *)

(** The state file [bot_state.json]. *)
Inductive file :=
| NoFile                (* os.path.exists is false *)
| Garbled               (* truncated by a write that failed half-way *)
| Doc (j : json).

(** What happens to one [open(STATE_FILE, "w")] / [json.dump]. *)
Inductive write_outcome :=
| WriteOk
| OpenFails             (* open raises: the file is left as it was *)
| WriteFails.           (* open truncated the file, json.dump raised *)

(** An order sent to the exchange with [client.create_order]. *)
Inductive Action :=
| Buy (symbol : string) (quoteOrderQty : Q)
| Sell (symbol : string) (quantity : Q).

Inductive connection := Connected | ConnectionClosed.
Inductive task := Scheduled | Cancelled.

Record Machine := mkMachine {
  mem : BotState;                 (* self.state, the global [state] *)
  disk : file;
  writes : list write_outcome;    (* outcomes of the coming writes; none left: success *)
  client : option connection;     (* self.client *)
  price_task : option task        (* self.price_task *)
}.

(** A computation: from a machine to its result (a value or a raised
    exception), the machine it leaves, and the orders it sent to the
    exchange, in the order of sending. *)
Definition M (A : Type) : Type := Machine -> result A * Machine * list Action.

Definition ret {A} (a : A) : M A := fun m => (Ok a, m, []).
Definition raise {A} (e : exn) : M A := fun m => (Raise e, m, []).
Definition bind {A B} (c : M A) (k : A -> M B) : M B :=
  fun m => match c m with
           | (Ok a, m', l) =>
               match k a m' with
               | (r, m'', l') => (r, m'', (l ++ l')%list)
               end
           | (Raise e, m', l) => (Raise e, m', l)
           end.

Notation "'let*' x := c 'in' k" := (bind c (fun x => k))
  (at level 10, x name, c at level 100, k at level 200).
Notation "c ;;; k" := (bind c (fun _ => k))
  (at level 100, k at level 200, right associativity).

(** [try: c except e: h e] *)
Definition try_except {A} (c : M A) (h : exn -> M A) : M A :=
  fun m => match c m with
           | (Ok a, m', l) => (Ok a, m', l)
           | (Raise e, m', l) =>
               match h e m' with
               | (r, m'', l') => (r, m'', (l ++ l')%list)
               end
           end.

Definition set_mem (st : BotState) (m : Machine) : Machine :=
  mkMachine st (disk m) (writes m) (client m) (price_task m).
Definition set_file (d : file) (w : list write_outcome) (m : Machine) : Machine :=
  mkMachine (mem m) d w (client m) (price_task m).
Definition with_client (c : option connection) (m : Machine) : Machine :=
  mkMachine (mem m) (disk m) (writes m) c (price_task m).
Definition with_price_task (t : option task) (m : Machine) : Machine :=
  mkMachine (mem m) (disk m) (writes m) (client m) t.

Definition get_state : M BotState := fun m => (Ok (mem m), m, []).
Definition modify_state (f : BotState -> BotState) : M unit :=
  fun m => (Ok tt, set_mem (f (mem m)) m, []).
Definition send (a : Action) : M unit :=
  fun m => (Ok tt, m, [a]).
Definition get_client : M (option connection) := fun m => (Ok (client m), m, []).
Definition set_client (c : option connection) : M unit :=
  fun m => (Ok tt, with_client c m, []).
Definition get_price_task : M (option task) :=
  fun m => (Ok (price_task m), m, []).
Definition set_price_task (t : option task) : M unit :=
  fun m => (Ok tt, with_price_task t m, []).

Definition lift {A} (r : result A) : M A := fun m => (r, m, []).

(** The result of running [c] from [m], the machine it leaves, and the
    orders it sends. *)
Definition eval {A} (c : M A) (m : Machine) : result A := (c m).1.1.
Definition exec {A} (c : M A) (m : Machine) : Machine := (c m).1.2.
Definition orders_of {A} (c : M A) (m : Machine) : list Action := (c m).2.

(** [save_state(state)] *)
Definition save_state (state : BotState) : M unit :=
  fun m =>
    match writes m with
    | [] => (Ok tt, set_file (Doc (serializable state)) [] m, [])
    | WriteOk :: w => (Ok tt, set_file (Doc (serializable state)) w m, [])
    | OpenFails :: w => (Raise OSError, set_file (disk m) w m, [])
    | WriteFails :: w => (Raise OSError, set_file Garbled w m, [])
    end.

(** [load_state()] *)
Definition load_state : M BotState :=
  fun m =>
    match disk m with
    | Doc raw => lift (state_of_raw raw) m
    | Garbled => raise JSONDecodeError m
    | NoFile =>
        let st := BotState_default in
        let st := with_remaining_budget
                    (Parameters.allocated_budget (params st)) st in
        (save_state st ;;; ret st) m
    end.

(** ** Binance helpers *)

Inductive reply (A : Type) :=
| Returns (a : A)
| Throws (e : exn).
Arguments Returns {A} a.
Arguments Throws {A} e.

Definition await {A} (r : reply A) : M A :=
  match r with
  | Returns a => ret a
  | Throws e => raise e
  end.

Record Fill := mkFill { fill_price : Q; fill_qty : Q }.

(** The order response, a non-empty dict: the keys the bot reads.
    [fills] is empty when the key is missing or the list is empty, and the
    two quantities are 0 when their key is missing or falsy. *)
Record Order := mkOrder {
  fills : list Fill;
  executedQty : Q;
  cummulativeQuoteQty : Q
}.

(** The answers of the exchange during one call of [on_price]. *)
Record Env := mkEnv {
  symbol_info : reply (option Q);  (* get_symbol_info: stepSize of LOT_SIZE, if any *)
  symbol_ticker : reply Q;         (* get_symbol_ticker inside market_buy *)
  buy_order : reply Order;         (* create_order(side="BUY") *)
  sell_order : reply Order;        (* create_order(side="SELL") *)
  loop_time : string               (* asyncio.get_event_loop().time().__str__() *)
}.

(** [x.to_integral_value(rounding=ROUND_DOWN)]: truncation towards zero. *)
Definition round_down (x : Q) : Z := Z.quot (Qnum x) (Zpos (Qden x)).

(** [market_buy(client, symbol, quote_amount)] *)
Definition market_buy (env : Env) (symbol : string) (quote_amount : Q)
    : M (option Order) :=
  let* info := await (symbol_info env) in
  let* price := await (symbol_ticker env) in
  if Qeq_bool price 0 then
    raise (if Qeq_bool quote_amount 0 then OtherError else ZeroDivisionError)
  else
    let qty := (quote_amount / price)%Q in
    let step_size :=
      match info with
      | Some s => if Qeq_bool s 0 then (1 # 100000000)%Q else s
      | None => (1 # 100000000)%Q
      end in
    let quant := (inject_Z (round_down (qty / step_size)) * step_size)%Q in
    if Qle_bool quant 0 then ret None
    else
      send (Buy symbol quote_amount) ;;;
      match buy_order env with
      | Returns order => ret (Some order)
      | Throws BinanceAPIException => ret None
      | Throws e => raise e
      end.

(** [market_sell(client, symbol, quantity)] *)
Definition market_sell (env : Env) (symbol : string) (quantity : Q)
    : M (option Order) :=
  send (Sell symbol quantity) ;;;
  match sell_order env with
  | Returns order => ret (Some order)
  | Throws BinanceAPIException => ret None
  | Throws e => raise e
  end.

(** ** Trading logic *)

(** [save_state(self.state)] *)
Definition checkpoint : M unit :=
  let* st := get_state in save_state st.

(** [sum(...)] over the fills: from 0, left to right. *)
Definition sum_qty (fs : list Fill) : Q :=
  fold_left (fun acc f => (acc + fill_qty f)%Q) fs 0%Q.
Definition sum_notional (fs : list Fill) : Q :=
  fold_left (fun acc f => (acc + fill_price f * fill_qty f)%Q) fs 0%Q.

(** The quantity and average price read from the order response
    (lines 239-247 of the source). *)
Definition fill_summary (order : Order) (price : Q) : result (Q * Q) :=
  match fills order with
  | _ :: _ =>
      let qty := sum_qty (fills order) in
      if Qeq_bool qty 0 then Raise ZeroDivisionError
      else Ok (qty, (sum_notional (fills order) / qty)%Q)
  | [] =>
      let qty := executedQty order in
      let cqq := cummulativeQuoteQty order in
      Ok (qty, if Qeq_bool qty 0 then price else (cqq / qty)%Q)
  end.

(** [del self.state.positions[k]] *)
Definition del_position (k : string) : M unit :=
  let* st := get_state in
  match positions st !! k with
  | None => raise KeyError
  | Some _ => modify_state (with_positions (delete k (positions st)))
  end.

(** The statements shared by the two sell branches: the market sell and,
    when an order comes back, the closing of the position and the
    reseeding of the reference price. *)
Definition sell_position (env : Env) (pos : Position.t) (price : Q) : M unit :=
  let* order := market_sell env (Position.symbol pos) (Position.quantity pos) in
  match order with
  | Some _ =>
      del_position (Position.symbol pos) ;;;
      checkpoint ;;;
      modify_state (with_last_reference_price (Some price)) ;;;
      checkpoint
  | None => ret tt
  end.

(** [TradingBot.on_price(price)] *)
Definition on_price (env : Env) (price : Q) : M unit :=
  let* st := get_state in
  let params := params st in
  match last_reference_price st with
  | None =>
      modify_state (with_last_reference_price (Some price)) ;;;
      checkpoint
  | Some reference =>
      match positions st !! Parameters.symbol params with
      | None =>
          if Qle_bool price (reference * (1 - Parameters.decrease_pct params))
          then
            if Qle_bool (Parameters.tx_amount params) (remaining_budget st)
            then
              let* order := market_buy env (Parameters.symbol params)
                                       (Parameters.tx_amount params) in
              match order with
              | Some order =>
                  let* qa := lift (fill_summary order price) in
                  let qty := qa.1 in
                  let avg_price := qa.2 in
                  if Qlt_bool 0 qty then
                    let pos := Position.mk (Parameters.symbol params) qty
                                 avg_price avg_price (loop_time env) in
                    modify_state (fun s =>
                      with_positions
                        (<[Parameters.symbol params := pos]> (positions s)) s) ;;;
                    modify_state (fun s =>
                      with_remaining_budget
                        (remaining_budget s - Parameters.tx_amount params)%Q s) ;;;
                    checkpoint
                  else ret tt
              | None => ret tt
              end
            else ret tt
          else
            if Qlt_bool reference price then
              modify_state (with_last_reference_price (Some price)) ;;;
              checkpoint
            else ret tt
      | Some pos =>
          let pos := Position.set_highest_price
                       (py_max (Position.highest_price pos) price) pos in
          modify_state (fun s =>
            with_positions
              (<[Parameters.symbol params := pos]> (positions s)) s) ;;;
          checkpoint ;;;
          let target_price :=
            (Position.buy_price pos * (1 + Parameters.increase_pct params))%Q in
          if Qle_bool target_price price then
            sell_position env pos price
          else
            if Qlt_bool (Position.buy_price pos) (Position.highest_price pos)
            then
              let trailing_stop_price :=
                (Position.highest_price pos
                 * (1 - Parameters.decrease_pct params))%Q in
              if Qle_bool price trailing_stop_price
                 && Qle_bool (Position.buy_price pos) price
              then sell_position env pos price
              else ret tt
            else ret tt
      end
  end.

(** [get_current_price(client, symbol)] *)
Definition get_current_price (quote : reply Q) : M Q := await quote.

(** One pass of the [while] body of [price_monitor_loop]: the answers of
    the exchange, and whether the task is cancelled during the sleep. *)
Record Tick := mkTick {
  quote : reply Q;
  env : Env;
  sleep : reply unit
}.

(** [TradingBot.price_monitor_loop()] over the ticks that the
    environment supplies (a finite prefix of its run). *)
Fixpoint price_monitor_loop (ticks : list Tick) : M unit :=
  match ticks with
  | [] => ret tt
  | t :: rest =>
      let* st := get_state in
      if running st then
        let* go_on :=
          try_except
            (let* price := get_current_price (quote t) in
             on_price (env t) price ;;;
             ret true)
            (fun e =>
               match e with
               | CancelledError => ret false
               | _ => ret true      (* logger.exception *)
               end) in
        if go_on : bool then
          await (sleep t) ;;;
          price_monitor_loop rest
        else ret tt
      else ret tt
  end.

(** [TradingBot.start()]; [new_client] is the outcome of
    [create_binance_client()]. *)
Definition start (new_client : reply unit) : M unit :=
  let* st := get_state in
  if running st then ret tt
  else
    await new_client ;;;
    set_client (Some Connected) ;;;
    modify_state (with_running true) ;;;
    checkpoint ;;;
    set_price_task (Some Scheduled).

(** [TradingBot.stop()] *)
Definition stop (close_connection : reply unit) : M unit :=
  let* st := get_state in
  if negb (running st) then ret tt
  else
    modify_state (with_running false) ;;;
    checkpoint ;;;
    let* price_task := get_price_task in
    match price_task with
    | Some _ => set_price_task (Some Cancelled)
    | None => ret tt
    end ;;;
    let* client := get_client in
    match client with
    | Some _ => await close_connection ;;; set_client (Some ConnectionClosed)
    | None => ret tt
    end.

(** ** Discord commands

    Each command returns the message it sends to the channel (the texts
    are abridged). *)

(** [str.upper()] on ASCII letters. *)
Definition upper_ascii (c : Ascii.ascii) : Ascii.ascii :=
  let n := Ascii.nat_of_ascii c in
  if (97 <=? n)%nat && (n <=? 122)%nat then Ascii.ascii_of_nat (n - 32) else c.

Fixpoint upper (s : string) : string :=
  match s with
  | EmptyString => EmptyString
  | String c rest => String (upper_ascii c) (upper rest)
  end.

Definition setcoin (symbol : string) : M string :=
  modify_state (fun s => with_params (Parameters.set_symbol (upper symbol) (params s)) s) ;;;
  modify_state (with_last_reference_price None) ;;;
  checkpoint ;;;
  ret "Symbol set".

Definition set_decrease (pct : Q) : M string :=
  if Qle_bool pct 0 || Qle_bool 1 pct then
    ret "Please provide decrease percent as fractional value e.g. 0.02 for 2%"
  else
    modify_state (fun s => with_params (Parameters.set_decrease_pct pct (params s)) s) ;;;
    checkpoint ;;;
    ret "Decrease/trailing percent set".

Definition set_increase (pct : Q) : M string :=
  if Qle_bool pct 0 || Qle_bool 1 pct then
    ret "Please provide increase percent as fractional value e.g. 0.03 for 3%"
  else
    modify_state (fun s => with_params (Parameters.set_increase_pct pct (params s)) s) ;;;
    checkpoint ;;;
    ret "Profit target percent set".

Definition set_amount (amount : Q) : M string :=
  if Qle_bool amount 0 then ret "Amount must be positive"
  else
    modify_state (fun s => with_params (Parameters.set_tx_amount amount (params s)) s) ;;;
    checkpoint ;;;
    ret "Transaction amount set".

Definition set_budget (amount : Q) : M string :=
  if Qle_bool amount 0 then ret "Budget must be positive"
  else
    modify_state (fun s => with_params (Parameters.set_allocated_budget amount (params s)) s) ;;;
    modify_state (with_remaining_budget amount) ;;;
    checkpoint ;;;
    ret "Allocated budget set".

(** The [start] command (the guard of the command, then [TradingBot.start]). *)
Definition start_command (new_client : reply unit) : M string :=
  let* st := get_state in
  if running st then ret "Bot is already running"
  else start new_client ;;; ret "Bot started".

(** The [stop] command. *)
Definition stop_command (close_connection : reply unit) : M string :=
  let* st := get_state in
  if negb (running st) then ret "Bot is not running"
  else stop close_connection ;;; ret "Bot stopped".

Definition status : M string := ret "status".

Definition reset : M string :=
  modify_state (with_params Parameters.default) ;;;
  modify_state (fun s =>
    with_remaining_budget (Parameters.allocated_budget (params s)) s) ;;;
  modify_state (with_positions ∅) ;;;
  modify_state (with_last_reference_price None) ;;;
  modify_state (with_running false) ;;;
  checkpoint ;;;
  ret "State reset to defaults".

(** ** Runs of the bot *)

(** What the outside world does to the process: a chat command, or the
    monitor task running one pass of its loop. *)
Inductive input :=
| Setcoin (symbol : string)
| SetDecrease (pct : Q)
| SetIncrease (pct : Q)
| SetAmount (amount : Q)
| SetBudget (amount : Q)
| Start (new_client : reply unit)
| Stop (close_connection : reply unit)
| Status
| Reset
| Pass (t : Tick).

Definition step (i : input) : M unit :=
  match i with
  | Setcoin s => setcoin s ;;; ret tt
  | SetDecrease q => set_decrease q ;;; ret tt
  | SetIncrease q => set_increase q ;;; ret tt
  | SetAmount q => set_amount q ;;; ret tt
  | SetBudget q => set_budget q ;;; ret tt
  | Start r => start_command r ;;; ret tt
  | Stop r => stop_command r ;;; ret tt
  | Status => status ;;; ret tt
  | Reset => reset ;;; ret tt
  | Pass t => price_monitor_loop [t]
  end.

(** The exchange reports fills with non-negative prices and quantities. *)
Definition sane_order (o : Order) : Prop :=
  Forall (fun f => (0 <= fill_price f)%Q /\ (0 <= fill_qty f)%Q) (fills o)
  /\ (0 <= cummulativeQuoteQty o)%Q.

Definition sane_env (e : Env) : Prop :=
  match buy_order e with
  | Returns o => sane_order o
  | Throws _ => True
  end.

Definition sane_input (i : input) : Prop :=
  match i with
  | Pass t => sane_env (env t)
  | _ => True
  end.

(** The state with which a first run starts: [load_state()] without a
    state file. *)
Definition fresh_state : BotState :=
  with_remaining_budget (Parameters.allocated_budget Parameters.default)
    BotState_default.

(** The states of [self.state] that a run can be in between two inputs,
    whatever the file system does and whatever the exchange answers
    within [sane_input].  The machine around the state is arbitrary at
    every step.  A restart loads a state that some checkpoint wrote,
    which is the state in which the run would have stopped had that
    write failed: restarts add no states. *)
Inductive reachable : BotState -> Prop :=
| reachable_fresh : reachable fresh_state
| reachable_step (m : Machine) (i : input) :
    reachable (mem m) -> sane_input i -> reachable (mem (exec (step i) m)).

(** The data model's constraints on a state. *)
Record wf (st : BotState) : Prop := mk_wf {
  wf_decrease : (0 < Parameters.decrease_pct (params st)
                 /\ Parameters.decrease_pct (params st) < 1)%Q;
  wf_increase : (0 < Parameters.increase_pct (params st)
                 /\ Parameters.increase_pct (params st) < 1)%Q;
  wf_tx_amount : (0 < Parameters.tx_amount (params st))%Q;
  wf_allocated : (0 < Parameters.allocated_budget (params st))%Q;
  wf_budget : (0 <= remaining_budget st
               /\ remaining_budget st
                  <= Parameters.allocated_budget (params st))%Q;
  wf_positions : forall k p, positions st !! k = Some p ->
      Position.symbol p = k
      /\ (0 < Position.quantity p)%Q
      /\ (0 <= Position.buy_price p)%Q
      /\ (Position.buy_price p <= Position.highest_price p)%Q
}.

(** Weakest preconditions: [wp c m Q] says that running [c] from [m]
    ends in a result, a machine and a list of sent orders that satisfy
    [Q]. *)
Definition wp {A} (c : M A) (m : Machine)
    (Q : result A -> Machine -> list Action -> Prop) : Prop :=
  Q (eval c m) (exec c m) (orders_of c m).


(** The executed quantity that [on_price] reads from a buy order: the sum
    over [fills] when there are any, [executedQty] otherwise. *)
Definition order_qty (order : Order) : Q :=
  match fills order with
  | _ :: _ => sum_qty (fills order)
  | [] => executedQty order
  end.

(** ** A run of the bot

    From a first start with no state file: [start], a first price of 100
    (the reference price), then 97.9, at which the bot buys 0.5 for
    its 50 of quote currency; the position is then held. *)

Module Run.
Definition boot : Machine := mkMachine fresh_state NoFile [] None None.

Definition exchange : Env :=
  mkEnv (Returns (Some (1 # 1000)%Q)) (Returns (979 # 10)%Q)
        (Returns (mkOrder [mkFill (979 # 10) (1 # 2)] (1 # 2) (4895 # 100)))
        (Returns (mkOrder [] (1 # 2) (515 # 10)))
        "12.5".

(** The exchange rejects every order. *)
Definition rejecting : Env :=
  mkEnv (Returns (Some (1 # 1000)%Q)) (Returns (979 # 10)%Q)
        (Throws BinanceAPIException) (Throws BinanceAPIException) "12.5".

Definition tick (p : Q) : Tick := mkTick (Returns p) exchange (Returns tt).

Definition started : Machine := exec (step (Start (Returns tt))) boot.
Definition watching : Machine := exec (step (Pass (tick 100))) started.
Definition holding : Machine := exec (step (Pass (tick (979 # 10)))) watching.

(** The price rises to 100, below the target of 100.837. *)
Definition risen : Machine := exec (step (Pass (tick 100))) holding.

(** The operator sends [setcoin btcusdt] while the position is held. *)
Definition renamed : Machine := exec (step (Setcoin "btcusdt")) risen.

(** The bot has been started; the next write of the state file is
    going to fail half-way. *)
Definition disk_full : Machine :=
  set_file (disk started) [WriteFails] started.

(** A state file edited by hand: the position stored under BTCUSDT
    carries the symbol ETHUSDT. *)
Definition edited : Machine :=
  let eth := Position.mk "ETHUSDT" 1 100 100 "1.0" in
  mkMachine
    (mkBotState Parameters.default 400
                (<["BTCUSDT" := eth]> (<["ETHUSDT" := eth]> ∅))
                (Some 100%Q) true)
    NoFile [] (Some Connected) (Some Scheduled).

(** The states of the scenarios: a position bought at 100 whose
    high-water mark is [highest], and no position with the reference
    price at 100. *)
Definition bought_at_100 (highest : Q) : Machine :=
  mkMachine
    (mkBotState Parameters.default 450
                (<["BTCUSDT" := Position.mk "BTCUSDT" 1 100 highest "1.0"]> ∅)
                (Some 100%Q) true)
    NoFile [] (Some Connected) (Some Scheduled).

Definition waiting_at_100 : Machine :=
  mkMachine (mkBotState Parameters.default 500 ∅ (Some 100%Q) true)
            NoFile [] (Some Connected) (Some Scheduled).
End Run.

(** The position stored under the configured symbol, if any, carries
    that symbol. *)
Definition own_key (st : BotState) : Prop :=
  forall pos,
    positions st !! Parameters.symbol (params st) = Some pos ->
    Position.symbol pos = Parameters.symbol (params st).

(** Every position is stored under its own symbol. *)
Definition keyed (st : BotState) : Prop :=
  forall k pos, positions st !! k = Some pos -> Position.symbol pos = k.


(** ** More of the source *)

(** The step size that [market_buy] rounds the quantity down to: the
    [stepSize] of the LOT_SIZE filter, or 0.00000001 when there is no
    such filter or its step is zero.  [Decimal] values are exact
    rationals, like floats. *)
Definition lot_step (info : option Q) : Q :=
  match info with
  | Some s => if Qeq_bool s 0 then (1 # 100000000)%Q else s
  | None => (1 # 100000000)%Q
  end.

(** [create_binance_client()]: the two keys come from the environment
    ([os.getenv], [None] when unset); [create] is the outcome of
    [AsyncClient.create]. *)
Definition create_binance_client (api_key api_secret : option string)
    (create : reply unit) : reply unit :=
  match api_key, api_secret with
  | Some (String _ _), Some (String _ _) => create
  | _, _ => Throws RuntimeError
  end.

(** Data of the examples below. *)
Module More.
Definition poor : Machine :=
  set_mem (with_remaining_budget 49 (mem Run.waiting_at_100))
          Run.waiting_at_100.

Definition no_quote : Tick :=
  mkTick (Throws OtherError) Run.exchange (Returns tt).

Definition first_write_fails : Machine :=
  set_file NoFile [WriteFails] Run.boot.

Definition with_leverage : list (string * json) :=
  [("params", JObj [("symbol", JStr "ETHUSDT"); ("leverage", JNum 2)])].
End More.
(** * Properties *)

(** ** Comparisons *)

Lemma Qlt_bool_iff (a b : Q) : Qlt_bool a b = true <-> (a < b)%Q.
Proof.
  unfold Qlt_bool. rewrite negb_true_iff.
  split.
  - intros H. apply Qnot_le_lt. intros Hle.
    apply Qle_bool_iff in Hle. congruence.
  - intros H. destruct (Qle_bool b a) eqn:E; [|reflexivity].
    apply Qle_bool_iff in E. exfalso. apply (Qlt_not_le _ _ H E).
Qed.

Lemma Qlt_bool_false (a b : Q) : Qlt_bool a b = false <-> (b <= a)%Q.
Proof.
  unfold Qlt_bool. rewrite negb_false_iff. apply Qle_bool_iff.
Qed.

Lemma Qle_bool_false (a b : Q) : Qle_bool a b = false <-> (b < a)%Q.
Proof.
  rewrite <- Qlt_bool_iff. unfold Qlt_bool.
  destruct (Qle_bool a b); simpl; split; congruence.
Qed.

Lemma py_max_ge_l (a b : Q) : (a <= py_max a b)%Q.
Proof.
  unfold py_max. destruct (Qlt_bool a b) eqn:E.
  - apply Qlt_bool_iff in E. apply Qlt_le_weak, E.
  - apply Qle_refl.
Qed.

Lemma py_max_ge_r (a b : Q) : (b <= py_max a b)%Q.
Proof.
  unfold py_max. destruct (Qlt_bool a b) eqn:E.
  - apply Qle_refl.
  - apply Qlt_bool_false in E. exact E.
Qed.

(** ** Rules of the weakest precondition *)

Section WP.
Context {A B : Type}.

Lemma wp_ret (a : A) m (Q : result A -> Machine -> list Action -> Prop) :
  Q (Ok a) m [] -> wp (ret a) m Q.
Proof. exact id. Qed.

Lemma wp_raise e m (Q : result A -> Machine -> list Action -> Prop) :
  Q (Raise e) m [] -> wp (raise e) m Q.
Proof. exact id. Qed.

Lemma wp_bind (c : M A) (k : A -> M B) m
    (Q : result B -> Machine -> list Action -> Prop) :
  wp c m (fun r m' l =>
            match r with
            | Ok a => wp (k a) m' (fun r' m'' l' => Q r' m'' (l ++ l')%list)
            | Raise e => Q (Raise e) m' l
            end) ->
  wp (bind c k) m Q.
Proof.
  unfold wp, eval, exec, orders_of, bind.
  destruct (c m) as [[[a|e] m'] l]; simpl; [|auto].
  destruct (k a m') as [[r m''] l']; simpl; auto.
Qed.

Lemma wp_mono (c : M A) m (Q Q' : result A -> Machine -> list Action -> Prop) :
  (forall r m' l, Q r m' l -> Q' r m' l) -> wp c m Q -> wp c m Q'.
Proof. unfold wp. auto. Qed.

Lemma wp_await (r : reply A) m (Q : result A -> Machine -> list Action -> Prop) :
  (forall a, r = Returns a -> Q (Ok a) m []) ->
  (forall e, r = Throws e -> Q (Raise e) m []) ->
  wp (await r) m Q.
Proof. intros H1 H2. destruct r; [apply H1 | apply H2]; reflexivity. Qed.

Lemma wp_lift (r : result A) m (Q : result A -> Machine -> list Action -> Prop) :
  Q r m [] -> wp (lift r) m Q.
Proof. exact id. Qed.

Lemma wp_try_except (c : M A) (h : exn -> M A) m
    (Q : result A -> Machine -> list Action -> Prop) :
  wp c m (fun r m' l =>
            match r with
            | Ok a => Q (Ok a) m' l
            | Raise e => wp (h e) m' (fun r' m'' l' => Q r' m'' (l ++ l')%list)
            end) ->
  wp (try_except c h) m Q.
Proof.
  unfold wp, eval, exec, orders_of, try_except.
  destruct (c m) as [[[a|e] m'] l]; simpl; [auto|].
  destruct (h e m') as [[r m''] l']; simpl; auto.
Qed.
End WP.

Lemma wp_get_state m (Q : result BotState -> Machine -> list Action -> Prop) :
  Q (Ok (mem m)) m [] -> wp get_state m Q.
Proof. exact id. Qed.

Lemma wp_modify_state f m (Q : result unit -> Machine -> list Action -> Prop) :
  Q (Ok tt) (set_mem (f (mem m)) m) [] -> wp (modify_state f) m Q.
Proof. exact id. Qed.

Lemma wp_get_client m
    (Q : result (option connection) -> Machine -> list Action -> Prop) :
  Q (Ok (client m)) m [] -> wp get_client m Q.
Proof. exact id. Qed.

Lemma wp_set_client c m (Q : result unit -> Machine -> list Action -> Prop) :
  Q (Ok tt) (with_client c m) [] -> wp (set_client c) m Q.
Proof. exact id. Qed.

Lemma wp_get_price_task m
    (Q : result (option task) -> Machine -> list Action -> Prop) :
  Q (Ok (price_task m)) m [] -> wp get_price_task m Q.
Proof. exact id. Qed.

Lemma wp_set_price_task t m (Q : result unit -> Machine -> list Action -> Prop) :
  Q (Ok tt) (with_price_task t m) [] -> wp (set_price_task t) m Q.
Proof. exact id. Qed.

Lemma wp_send a m (Q : result unit -> Machine -> list Action -> Prop) :
  Q (Ok tt) m [a] -> wp (send a) m Q.
Proof. exact id. Qed.

(** A write either succeeds or raises [OSError]; memory is as before,
    the file and the oracle may have changed. *)
Lemma wp_save_state st m (Q : result unit -> Machine -> list Action -> Prop) :
  (forall d w, Q (Ok tt) (set_file d w m) []) ->
  (forall d w, Q (Raise OSError) (set_file d w m) []) ->
  wp (save_state st) m Q.
Proof.
  intros Hok Herr. unfold wp, eval, exec, orders_of, save_state.
  destruct (writes m) as [|[| |] w]; simpl; auto.
Qed.

Lemma wp_checkpoint m (Q : result unit -> Machine -> list Action -> Prop) :
  (forall d w, Q (Ok tt) (set_file d w m) []) ->
  (forall d w, Q (Raise OSError) (set_file d w m) []) ->
  wp checkpoint m Q.
Proof.
  intros Hok Herr. unfold checkpoint. apply wp_bind, wp_get_state.
  apply wp_save_state; assumption.
Qed.

(** ** Symbolic execution *)

Ltac wp_step :=
  lazymatch goal with
  | |- wp (bind _ _) _ _ => apply wp_bind
  | |- wp (ret _) _ _ => apply wp_ret
  | |- wp (raise _) _ _ => apply wp_raise
  | |- wp get_state _ _ => apply wp_get_state
  | |- wp (modify_state _) _ _ => apply wp_modify_state
  | |- wp (send _) _ _ => apply wp_send
  | |- wp get_client _ _ => apply wp_get_client
  | |- wp (set_client _) _ _ => apply wp_set_client
  | |- wp get_price_task _ _ => apply wp_get_price_task
  | |- wp (set_price_task _) _ _ => apply wp_set_price_task
  | |- wp checkpoint _ _ => apply wp_checkpoint; intros ? ?
  | |- wp (save_state _) _ _ => apply wp_save_state; intros ? ?
  | |- wp (lift ?r) _ _ => apply wp_lift; destruct r eqn:?
  | |- wp (await _) _ _ => apply wp_await; intros ? ?
  | |- wp (if ?b then _ else _) _ _ => destruct b eqn:?
  | |- wp (match ?x with _ => _ end) _ _ => destruct x eqn:?
  end; cbn beta iota.

Ltac wp_run :=
  repeat wp_step;
  cbn [mem set_mem set_file with_client with_price_task app].

(** ** The data model's constraints hold in every reachable state *)

Lemma wf_with_last_reference_price r st :
  wf st -> wf (with_last_reference_price r st).
Proof. intros [? ? ? ? ? ?]. constructor; assumption. Qed.

Lemma wf_insert k p st :
  wf st -> Position.symbol p = k -> (0 < Position.quantity p)%Q ->
  (0 <= Position.buy_price p)%Q ->
  (Position.buy_price p <= Position.highest_price p)%Q ->
  wf (with_positions (<[k := p]> (positions st)) st).
Proof.
  intros [? ? ? ? ? Hp] Hk Hq Hb Hh. constructor; try assumption.
  cbn. intros k' p' Hl. rewrite lookup_insert in Hl.
  case_decide.
  - inversion Hl; subst. auto.
  - apply Hp, Hl.
Qed.

Lemma wf_delete k st :
  wf st -> wf (with_positions (delete k (positions st)) st).
Proof.
  intros [? ? ? ? ? Hp]. constructor; try assumption.
  cbn. intros k' p' Hl. apply lookup_delete_Some in Hl as [_ Hl].
  apply Hp, Hl.
Qed.

Lemma wf_spend x st :
  wf st -> (0 <= x)%Q -> (x <= remaining_budget st)%Q ->
  wf (with_remaining_budget (remaining_budget st - x) st).
Proof.
  intros [? ? ? ? [H0 H1] Hp] Hx Hle. constructor; try assumption.
  cbn. split; lra.
Qed.

Lemma sum_notional_nonneg fs acc :
  Forall (fun f => (0 <= fill_price f)%Q /\ (0 <= fill_qty f)%Q) fs ->
  (0 <= acc)%Q ->
  (0 <= fold_left (fun acc f => (acc + fill_price f * fill_qty f)%Q) fs acc)%Q.
Proof.
  intros H. revert acc. induction H as [|f fs [Hp Hq] _ IH]; intros acc Hacc.
  - exact Hacc.
  - cbn. apply IH.
    pose proof (Qmult_le_0_compat _ _ Hp Hq). lra.
Qed.

Lemma fill_summary_nonneg o price qty avg :
  sane_order o -> fill_summary o price = Ok (qty, avg) ->
  (0 < qty)%Q -> (0 <= avg)%Q.
Proof.
  intros [Hf Hc] Hs Hq. unfold fill_summary in Hs.
  destruct (fills o) as [|f fs] eqn:Ef.
  - inversion Hs; subst; clear Hs.
    destruct (Qeq_bool (executedQty o) 0) eqn:E.
    + apply Qeq_bool_iff in E. lra.
    + apply Qle_shift_div_l; [exact Hq | lra].
  - destruct (Qeq_bool (sum_qty (f :: fs)) 0) eqn:E; [discriminate|].
    inversion Hs; subst; clear Hs.
    apply Qle_shift_div_l; [exact Hq |].
    rewrite Qmult_0_l. apply sum_notional_nonneg; [exact Hf | lra].
Qed.



Lemma wf_with_running b st : wf st -> wf (with_running b st).
Proof. intros [? ? ? ? ? ?]. constructor; assumption. Qed.

Lemma wf_fresh_state : wf fresh_state.
Proof.
  constructor; cbn; try (split; reflexivity); try reflexivity.
  - split; discriminate.
  - intros k p H. rewrite lookup_empty in H. discriminate.
Qed.

Ltac wf_leaf Hwf :=
  repeat first [ assumption
               | apply wf_with_last_reference_price
               | apply wf_with_running
               | apply wf_delete ];
  try apply wf_spend;
  try (apply wf_insert; [assumption | cbn ..]);
  try match goal with
    | H : positions (mem _) !! _ = Some ?t |- _ =>
        destruct (wf_positions _ Hwf _ _ H) as (? & ? & ? & ?)
    end;
  try assumption.

Lemma on_price_wf env price m :
  sane_env env -> wf (mem m) ->
  wp (on_price env price) m (fun _ m' _ => wf (mem m')).
Proof.
  intros Hsane Hwf.
  unfold on_price, sell_position, market_buy, market_sell, del_position.
  wp_run.
  all: wf_leaf Hwf.
  all: try (eapply Qle_trans; [eassumption | apply py_max_ge_l]).
  all: try reflexivity.
  all: try apply Qle_refl.
  all: try (apply Qlt_bool_iff; assumption).
  all: try (apply Qlt_le_weak, (wf_tx_amount _ Hwf)).
  all: try (apply Qle_bool_iff; assumption).
  all: unfold sane_env in Hsane;
    match goal with
    | H : buy_order _ = Returns _ |- _ => rewrite H in Hsane
    end;
    match goal with
    | H : fill_summary _ _ = Ok ?a, H' : Qlt_bool 0 _ = true |- _ =>
        destruct a as [qty avg]; apply Qlt_bool_iff in H';
        exact (fill_summary_nonneg _ _ _ _ Hsane H H')
    end.
Qed.

(** One pass of the monitor loop: nothing happens (the bot is stopped or
    the price cannot be fetched), or [on_price] runs once. *)
Lemma wp_pass t m (Q : Machine -> list Action -> Prop) :
  Q m [] ->
  (forall p, quote t = Returns p ->
     wp (on_price (env t) p) m (fun _ m' l => Q m' l)) ->
  wp (price_monitor_loop [t]) m (fun _ m' l => Q m' l).
Proof.
  intros Hidle Hrun. unfold price_monitor_loop, get_current_price.
  wp_step. wp_step. wp_step; [|wp_step; assumption].
  wp_step. apply wp_try_except.
  wp_step. wp_step.
  - wp_step. eapply wp_mono; [|apply (Hrun _ H)].
    intros [[]|e] m' l Hm'; cbn beta iota.
    + wp_run; rewrite ?app_nil_r; assumption.
    + destruct e; wp_run; rewrite ?app_nil_r; assumption.
  - destruct e; wp_run; assumption.
Qed.

Lemma price_monitor_loop_one_wf t m :
  sane_env (env t) -> wf (mem m) ->
  wp (price_monitor_loop [t]) m (fun _ m' _ => wf (mem m')).
Proof.
  intros Hsane Hwf. apply (wp_pass t m (fun m' _ => wf (mem m'))).
  - exact Hwf.
  - intros p _. apply on_price_wf; assumption.
Qed.

Lemma wf_with_params p st :
  wf st ->
  (0 < Parameters.decrease_pct p /\ Parameters.decrease_pct p < 1)%Q ->
  (0 < Parameters.increase_pct p /\ Parameters.increase_pct p < 1)%Q ->
  (0 < Parameters.tx_amount p)%Q ->
  (0 < Parameters.allocated_budget p)%Q ->
  (remaining_budget st <= Parameters.allocated_budget p)%Q ->
  wf (with_params p st).
Proof.
  intros [? ? ? ? [? ?] ?] ? ? ? ? ?. constructor; cbn; auto.
Qed.

Lemma step_wf i m :
  sane_input i -> wf (mem m) -> wp (step i) m (fun _ m' _ => wf (mem m')).
Proof.
  intros Hsane Hwf.
  destruct i; cbn [step];
    try (apply price_monitor_loop_one_wf; assumption);
    unfold setcoin, set_decrease, set_increase, set_amount, set_budget,
      start_command, stop_command, start, stop, status, reset;
    wp_run.
  all: wf_leaf Hwf.
  all: try (apply wf_with_params; cbn;
            try assumption; try apply Hwf).
  all: try match goal with
    | H : _ || _ = false |- _ =>
        apply orb_false_elim in H as [H1 H2];
        apply Qle_bool_false in H1, H2; split; assumption
    end.
  all: try (apply Qle_bool_false; assumption).
  all: try match goal with
    | H : Qle_bool ?a 0 = false |- _ =>
        apply Qle_bool_false in H; destruct Hwf as [? ? ? ? ? ?];
        constructor; cbn; try assumption; try split; lra
    end.
  all: constructor; cbn; try (split; reflexivity); try reflexivity;
    try (split; discriminate);
    intros k p H; rewrite lookup_empty in H; discriminate.
Qed.

Lemma reachable_wf st : reachable st -> wf st.
Proof.
  induction 1 as [|m i _ IH Hsane].
  - apply wf_fresh_state.
  - apply (step_wf i m Hsane IH).
Qed.

(** ** Facts about the run *)

Lemma sane_exchange : sane_env Run.exchange.
Proof.
  unfold sane_env, sane_order; cbn.
  split; [|discriminate].
  constructor; [split; discriminate | constructor].
Defined.

Lemma reachable_started : reachable (mem Run.started).
Proof. apply (reachable_step Run.boot), I. apply reachable_fresh. Defined.

Lemma reachable_watching : reachable (mem Run.watching).
Proof.
  apply (reachable_step Run.started (Pass (Run.tick 100))).
  - apply reachable_started.
  - apply sane_exchange.
Defined.

Lemma reachable_holding : reachable (mem Run.holding).
Proof.
  apply (reachable_step Run.watching (Pass (Run.tick (979 # 10)))).
  - apply reachable_watching.
  - apply sane_exchange.
Defined.

Lemma reachable_risen : reachable (mem Run.risen).
Proof.
  apply (reachable_step Run.holding (Pass (Run.tick 100))).
  - apply reachable_holding.
  - apply sane_exchange.
Defined.

Lemma reachable_renamed : reachable (mem Run.renamed).
Proof.
  apply (reachable_step Run.risen (Setcoin "btcusdt")), I.
  apply reachable_risen.
Defined.

(** Scenario A: the fill at 97.9 opens the position and takes one trade
    amount from the budget. *)
Example holding_position :
  exists pos,
    positions (mem Run.holding) !! "BTCUSDT" = Some pos
    /\ (Position.buy_price pos == 979 # 10)%Q
    /\ (Position.highest_price pos == 979 # 10)%Q
    /\ (remaining_budget (mem Run.holding) == 450)%Q.
Proof. eexists. split; [vm_compute; reflexivity|]. repeat split. Qed.

(** ** Reading an order *)

Lemma fill_summary_qty o price qa :
  fill_summary o price = Ok qa -> qa.1 = order_qty o.
Proof.
  unfold fill_summary, order_qty. destruct (fills o).
  - intros H; inversion H; reflexivity.
  - destruct (Qeq_bool _ _); [discriminate|].
    intros H; inversion H; reflexivity.
Qed.

Lemma target_above_buy (b i p : Q) :
  (0 <= b)%Q -> (0 < i)%Q -> (b * (1 + i) <= p)%Q -> (b <= p)%Q.
Proof.
  intros Hb Hi Hp.
  pose proof (Qmult_le_0_compat b i Hb (Qlt_le_weak _ _ Hi)). lra.
Qed.

Ltac on_price_run :=
  unfold on_price, sell_position, market_buy, market_sell, del_position;
  wp_run.

Ltac in_cases Hin :=
  cbn [In] in Hin;
  repeat match goal with
         | H : _ \/ _ |- _ => destruct H
         | H : False |- _ => destruct H
         | H : Buy _ _ = Sell _ _ |- _ => discriminate H
         | H : Sell _ _ = Buy _ _ |- _ => discriminate H
         | H : Sell _ _ = Sell _ _ |- _ => inversion H; subst; clear H
         | H : Buy _ _ = Buy _ _ |- _ => inversion H; subst; clear H
         end.

(** ** The loss invariant *)

(** C1. In every reachable state, a price observation sends a sell order
    only for the open position of the configured symbol, for its full
    quantity, and only at an observed price that is at least the
    position's buy price: either the profit target
    [buy_price * (1 + increase_pct)] is reached, with [increase_pct > 0],
    or the trailing stop is hit and the price is at least [buy_price]. *)
Theorem no_sell_below_buy_price m env price s q :
  reachable (mem m) ->
  In (Sell s q) (orders_of (on_price env price) m) ->
  exists pos,
    positions (mem m) !! Parameters.symbol (params (mem m)) = Some pos
    /\ s = Position.symbol pos /\ q = Position.quantity pos
    /\ (0 < Parameters.increase_pct (params (mem m)))%Q
    /\ (Position.buy_price pos <= price)%Q
    /\ ((Position.buy_price pos * (1 + Parameters.increase_pct (params (mem m)))
         <= price)%Q
        \/ (price <= py_max (Position.highest_price pos) price
                     * (1 - Parameters.decrease_pct (params (mem m))))%Q).
Proof.
  intros Hreach. apply reachable_wf in Hreach as Hwf.
  revert s q.
  change (wp (on_price env price) m (fun _ _ l => forall s q,
    In (Sell s q) l -> exists pos,
    positions (mem m) !! Parameters.symbol (params (mem m)) = Some pos
    /\ s = Position.symbol pos /\ q = Position.quantity pos
    /\ (0 < Parameters.increase_pct (params (mem m)))%Q
    /\ (Position.buy_price pos <= price)%Q
    /\ ((Position.buy_price pos * (1 + Parameters.increase_pct (params (mem m)))
         <= price)%Q
        \/ (price <= py_max (Position.highest_price pos) price
                     * (1 - Parameters.decrease_pct (params (mem m))))%Q))).
  on_price_run.
  all: intros ? ? Hin; in_cases Hin.
  all: match goal with
       | H : positions (mem _) !! _ = Some ?t |- _ =>
           exists t; destruct (wf_positions _ Hwf _ _ H) as (_ & _ & Hb & _);
           split; [first [exact H | reflexivity]|]
       end.
  all: cbn [Position.buy_price Position.highest_price Position.symbol
            Position.quantity Position.set_highest_price] in *.
  all: pose proof (proj1 (wf_increase _ Hwf)) as Hinc.
  all: repeat match goal with
       | H : _ && _ = true |- _ => apply andb_prop in H as [? ?]
       | H : Qle_bool _ _ = true |- _ => apply Qle_bool_iff in H
       end.
  all: repeat split; try assumption; auto.
  all: eapply target_above_buy; eassumption.
Qed.

(** The position bought at 97.9 is sold when the price reaches 103. *)
Lemma no_sell_below_buy_price_witness :
  reachable (mem Run.holding)
  /\ In (Sell "BTCUSDT" (1 # 2)) (orders_of (on_price Run.exchange 103) Run.holding)
  /\ exists pos,
       positions (mem Run.holding) !! "BTCUSDT" = Some pos
       /\ (Position.buy_price pos <= 103)%Q.
Proof.
  assert (Hin : In (Sell "BTCUSDT" (1 # 2))
                   (orders_of (on_price Run.exchange 103) Run.holding))
    by (vm_compute; left; reflexivity).
  split; [apply reachable_holding|]. split; [exact Hin|].
  destruct (no_sell_below_buy_price Run.holding Run.exchange 103 _ _
              reachable_holding Hin) as (pos & Hp & _ & _ & _ & Hle & _).
  exists pos. split; [exact Hp | exact Hle].
Defined.

(** ** The budget invariant *)

(** What one price observation does to the budget. *)
Lemma on_price_budget env price m :
  wp (on_price env price) m (fun _ m' l =>
    (remaining_budget (mem m') = remaining_budget (mem m)
     \/ (remaining_budget (mem m')
         = (remaining_budget (mem m)
            - Parameters.tx_amount (params (mem m)))%Q
         /\ exists o, buy_order env = Returns o
                      /\ (0 < order_qty o)%Q
                      /\ In (Buy (Parameters.symbol (params (mem m)))
                                 (Parameters.tx_amount (params (mem m)))) l))
    /\ (forall s a, In (Buy s a) l ->
          s = Parameters.symbol (params (mem m))
          /\ a = Parameters.tx_amount (params (mem m))
          /\ (Parameters.tx_amount (params (mem m))
              <= remaining_budget (mem m))%Q
          /\ positions (mem m) !! Parameters.symbol (params (mem m)) = None)).
Proof.
  on_price_run.
  all: split; [| intros ? ? Hin; in_cases Hin;
                 repeat split; try assumption; try reflexivity;
                 apply Qle_bool_iff; assumption ].
  all: try (left; reflexivity).
  all: right; split; [reflexivity|].
  all: eexists; split; [reflexivity|].
  all: split; [| left; reflexivity].
  all: match goal with
       | H : fill_summary _ _ = Ok _ |- _ =>
           rewrite <- (fill_summary_qty _ _ _ H)
       end; apply Qlt_bool_iff; assumption.
Qed.

(** A price observation changes neither the parameters nor the
    [running] flag. *)
Lemma on_price_params env price m :
  wp (on_price env price) m (fun _ m' _ =>
    params (mem m') = params (mem m) /\ running (mem m') = running (mem m)).
Proof. on_price_run. all: split; reflexivity. Qed.





(** ** Failed fills *)

(** A buy order that is rejected, or comes back with nothing executed,
    leaves the whole machine as it was. *)
Lemma on_price_failed_buy env price m :
  (forall o, buy_order env = Returns o -> (order_qty o <= 0)%Q) ->
  wp (on_price env price) m (fun _ m' l =>
    (exists s a, In (Buy s a) l) -> m' = m).
Proof.
  intros Hrej. on_price_run.
  all: intros (? & ? & Hin); in_cases Hin.
  all: try reflexivity.
  all: exfalso.
  all: match goal with
       | H : fill_summary ?o _ = Ok _, H' : Qlt_bool 0 _ = true |- _ =>
           rewrite (fill_summary_qty _ _ _ H) in H';
           apply Qlt_bool_iff in H';
           apply (Qlt_not_le _ _ H'), Hrej
       end.
  all: first [assumption | reflexivity].
Qed.

(** A sell order that is rejected leaves the position open; only its
    high-water mark has moved. *)
Lemma on_price_failed_sell env price m :
  (forall o, sell_order env <> Returns o) ->
  wp (on_price env price) m (fun _ m' l =>
    (exists s q, In (Sell s q) l) ->
    exists pos,
      positions (mem m) !! Parameters.symbol (params (mem m)) = Some pos
      /\ mem m'
         = with_positions
             (<[Parameters.symbol (params (mem m)) :=
                  Position.set_highest_price
                    (py_max (Position.highest_price pos) price) pos]>
                (positions (mem m)))
             (mem m)).
Proof.
  intros Hrej. on_price_run.
  all: intros (? & ? & Hin); in_cases Hin.
  all: try (exfalso; eapply Hrej; first [eassumption | reflexivity]).
  all: eexists; split; reflexivity.
Qed.

(** C3, as amended.  When a buy order is rejected or comes back with
    nothing executed, the observation changes nothing: memory, state
    file and all.  When a sell order is rejected, the position stays
    open with its quantity and buy price, and the budget, the reference
    price and the parameters are unchanged; the position's high-water
    mark has been raised to [max(highest_price, price)], which the
    observation does before it tries to sell. *)
Theorem failed_fill_keeps_state m env price :
  let sym := Parameters.symbol (params (mem m)) in
  let m' := exec (on_price env price) m in
  let sent := orders_of (on_price env price) m in
  ((exists s a, In (Buy s a) sent) ->
   (forall o, buy_order env = Returns o -> (order_qty o <= 0)%Q) ->
   m' = m)
  /\ ((exists s q, In (Sell s q) sent) ->
      (forall o, sell_order env <> Returns o) ->
      exists pos,
        positions (mem m) !! sym = Some pos
        /\ positions (mem m') !! sym
           = Some (Position.set_highest_price
                     (py_max (Position.highest_price pos) price) pos)
        /\ (forall k, k <> sym ->
              positions (mem m') !! k = positions (mem m) !! k)
        /\ remaining_budget (mem m') = remaining_budget (mem m)
        /\ last_reference_price (mem m') = last_reference_price (mem m)
        /\ params (mem m') = params (mem m)
        /\ running (mem m') = running (mem m)).
Proof.
  intros sym m' sent. split.
  - intros Hin Hrej. exact (on_price_failed_buy env price m Hrej Hin).
  - intros Hin Hrej.
    destruct (on_price_failed_sell env price m Hrej Hin) as (pos & Hpos & Hm).
    exists pos. fold m' in Hm. rewrite Hm. cbn.
    split; [exact Hpos|]. split; [apply lookup_insert_eq|].
    split; [|auto].
    intros k Hk. apply lookup_insert_ne. intros E. apply Hk. symmetry. exact E.
Qed.

(** The sell at 103 is rejected: the position is still there. *)
Lemma failed_fill_keeps_state_witness :
  (exists s q, In (Sell s q) (orders_of (on_price Run.rejecting 103) Run.holding))
  /\ (forall o, sell_order Run.rejecting <> Returns o)
  /\ remaining_budget (mem (exec (on_price Run.rejecting 103) Run.holding))
     = remaining_budget (mem Run.holding).
Proof.
  assert (Hin : exists s q,
             In (Sell s q) (orders_of (on_price Run.rejecting 103) Run.holding))
    by (exists "BTCUSDT", (1 # 2)%Q; vm_compute; left; reflexivity).
  assert (Hrej : forall o, sell_order Run.rejecting <> Returns o)
    by (intros o; discriminate).
  split; [exact Hin|]. split; [exact Hrej|].
  destruct (proj2 (failed_fill_keeps_state Run.holding Run.rejecting 103)
              Hin Hrej) as (pos & _ & _ & _ & Hb & _).
  exact Hb.
Defined.

(** C3 as stated fails for sells: after a rejected sell the [positions]
    map is not what it was, because the high-water mark of the position
    has moved from 97.9 to 103. *)
Lemma failed_sell_moves_high_water_mark :
  sell_order Run.rejecting = Throws BinanceAPIException
  /\ orders_of (on_price Run.rejecting 103) Run.holding
     = [Sell "BTCUSDT" (1 # 2)]
  /\ positions (mem (exec (on_price Run.rejecting 103) Run.holding))
     <> positions (mem Run.holding).
Proof.
  split; [reflexivity|]. split; [vm_compute; reflexivity|].
  intros H. apply (f_equal (fun ps => ps !! "BTCUSDT")) in H.
  vm_compute in H. discriminate H.
Qed.

(** A sell order that comes back with nothing executed closes the
    position all the same: [on_price] does not read the order. *)
Example sell_with_nothing_executed_closes :
  let nothing := mkEnv (Returns None) (Returns 103%Q)
                       (Throws BinanceAPIException)
                       (Returns (mkOrder [] 0%Q 0%Q)) "13.0" in
  positions (mem (exec (on_price nothing 103) Run.holding)) !! "BTCUSDT" = None
  /\ last_reference_price (mem (exec (on_price nothing 103) Run.holding))
     = Some 103%Q.
Proof. split; vm_compute; reflexivity. Qed.

(** ** The high-water mark *)

(** With the reference price unset, a price observation only seeds it. *)
Lemma on_price_bootstrap env price m :
  last_reference_price (mem m) = None ->
  wp (on_price env price) m (fun _ m' l =>
    mem m' = with_last_reference_price (Some price) (mem m) /\ l = []).
Proof.
  intros Hnone. on_price_run.
  all: try congruence.
  all: split; reflexivity.
Qed.

(** With the reference price set and a position open, the position is
    either kept with its high-water mark raised, or sold. *)
Lemma on_price_tracks_highest env price m pos r :
  positions (mem m) !! Parameters.symbol (params (mem m)) = Some pos ->
  last_reference_price (mem m) = Some r ->
  wp (on_price env price) m (fun _ m' l =>
    positions (mem m') !! Parameters.symbol (params (mem m))
      = Some (Position.set_highest_price
                (py_max (Position.highest_price pos) price) pos)
    \/ (positions (mem m') !! Parameters.symbol (params (mem m)) = None
        /\ l = [Sell (Position.symbol pos) (Position.quantity pos)]
        /\ exists o, sell_order env = Returns o)).
Proof.
  intros Hpos Href. on_price_run.
  all: try congruence.
  all: repeat match goal with
       | H : Some _ = Some _ |- _ => inversion H; subst; clear H
       end.
  all: cbn [positions with_positions with_last_reference_price
            Position.symbol Position.quantity Position.set_highest_price] in *.
  all: try (left; apply lookup_insert_eq).
  all: destruct (decide (Position.symbol pos
                         = Parameters.symbol (params (mem m)))) as [E|E].
  all: try (left; rewrite lookup_delete_ne by exact E;
            apply lookup_insert_eq).
  all: right; rewrite E; rewrite lookup_delete_eq; eauto.
Qed.

(** C4, as amended.  With a position open for the configured symbol and
    the reference price set, a price observation raises the position's
    high-water mark to [max(highest_price, price)]; the position then
    stays, or it is sold in the same observation.  With the reference
    price unset, the observation only seeds the reference price, whether
    or not a position is open: the position is left as it is. *)
Theorem high_water_mark m env price pos :
  positions (mem m) !! Parameters.symbol (params (mem m)) = Some pos ->
  let sym := Parameters.symbol (params (mem m)) in
  let st' := mem (exec (on_price env price) m) in
  let sent := orders_of (on_price env price) m in
  (forall r, last_reference_price (mem m) = Some r ->
     positions st' !! sym
       = Some (Position.set_highest_price
                 (py_max (Position.highest_price pos) price) pos)
     \/ (positions st' !! sym = None
         /\ sent = [Sell (Position.symbol pos) (Position.quantity pos)]
         /\ exists o, sell_order env = Returns o))
  /\ (last_reference_price (mem m) = None ->
      st' = with_last_reference_price (Some price) (mem m)
      /\ positions st' !! sym = Some pos
      /\ sent = []).
Proof.
  intros Hpos sym st' sent. split.
  - intros r Href. exact (on_price_tracks_highest env price m pos r Hpos Href).
  - intros Hnone.
    destruct (on_price_bootstrap env price m Hnone) as [Hst Hl].
    fold st' in Hst. split; [exact Hst|]. split; [|exact Hl].
    rewrite Hst. exact Hpos.
Qed.

(** The price rises to 100 while the position bought at 97.9 is held. *)
Lemma high_water_mark_witness :
  exists pos,
    positions (mem Run.holding) !! "BTCUSDT" = Some pos
    /\ positions (mem (exec (on_price Run.exchange 100) Run.holding))
         !! "BTCUSDT"
       = Some (Position.set_highest_price
                 (py_max (Position.highest_price pos) 100) pos).
Proof.
  assert (Hpos : positions (mem Run.holding) !! "BTCUSDT"
                 = Some (Position.mk "BTCUSDT" (1 # 2) (1958 # 20) (1958 # 20)
                                     "12.5"))
    by (vm_compute; reflexivity).
  eexists. split; [exact Hpos|].
  destruct (proj1 (high_water_mark Run.holding Run.exchange 100 _ Hpos)
              100%Q eq_refl) as [H | (H & _)].
  - exact H.
  - vm_compute in H. discriminate H.
Defined.

(** C4 as stated fails in a reachable state: after [setcoin] the
    reference price is unset while the position is still open, and the
    next observation, at 103, leaves the high-water mark at 100. *)
Lemma bootstrap_skips_high_water_mark :
  reachable (mem Run.renamed)
  /\ Parameters.symbol (params (mem Run.renamed)) = "BTCUSDT"
  /\ last_reference_price (mem Run.renamed) = None
  /\ exists pos pos',
       positions (mem Run.renamed) !! "BTCUSDT" = Some pos
       /\ positions (mem (exec (on_price Run.exchange 103) Run.renamed))
            !! "BTCUSDT" = Some pos'
       /\ (Position.highest_price pos' == 100)%Q
       /\ ~ (Position.highest_price pos'
             == py_max (Position.highest_price pos) 103)%Q.
Proof.
  split; [apply reachable_renamed|].
  split; [vm_compute; reflexivity|].
  split; [vm_compute; reflexivity|].
  eexists. eexists.
  split; [vm_compute; reflexivity|].
  split; [vm_compute; reflexivity|].
  split; [reflexivity|].
  intros H. vm_compute in H. discriminate H.
Qed.

(** ** The single position invariant *)




(** ** The trailing stop *)

(** A checkpoint when no write is going to fail. *)
Lemma wp_checkpoint_ok m (Q : result unit -> Machine -> list Action -> Prop) :
  writes m = [] ->
  Q (Ok tt) (set_file (Doc (serializable (mem m))) [] m) [] ->
  wp checkpoint m Q.
Proof.
  intros Hw HQ. unfold checkpoint. apply wp_bind, wp_get_state.
  unfold wp, eval, exec, orders_of, save_state. rewrite Hw. exact HQ.
Qed.

Ltac wp_step_ok Hw :=
  lazymatch goal with
  | |- wp checkpoint _ _ =>
      apply wp_checkpoint_ok; [first [exact Hw | reflexivity] |];
      cbn beta iota
  | _ => wp_step
  end.

(** The sell decision below the profit target, when state-file writes
    succeed. *)
Lemma on_price_trailing env price m pos r :
  positions (mem m) !! Parameters.symbol (params (mem m)) = Some pos ->
  last_reference_price (mem m) = Some r ->
  writes m = [] ->
  Qle_bool (Position.buy_price pos
            * (1 + Parameters.increase_pct (params (mem m)))) price = false ->
  let sym := Parameters.symbol (params (mem m)) in
  let hi := py_max (Position.highest_price pos) price in
  let stop := (hi * (1 - Parameters.decrease_pct (params (mem m))))%Q in
  let kept := <[sym := Position.set_highest_price hi pos]> (positions (mem m)) in
  wp (on_price env price) m (fun _ m' l =>
    if Qlt_bool (Position.buy_price pos) hi
       && (Qle_bool price stop && Qle_bool (Position.buy_price pos) price)
    then
      l = [Sell (Position.symbol pos) (Position.quantity pos)]
      /\ ((forall o, sell_order env <> Returns o) ->
          mem m' = with_positions kept (mem m))
      /\ (forall o, sell_order env = Returns o ->
          Position.symbol pos = sym ->
          mem m' = with_last_reference_price (Some price)
                     (with_positions (delete sym (positions (mem m))) (mem m)))
    else
      l = [] /\ mem m' = with_positions kept (mem m)).
Proof.
  intros Hpos Href Hw Htarget sym hi stop kept.
  subst sym hi stop kept.
  unfold on_price, sell_position, market_sell, del_position.
  repeat wp_step_ok Hw.
  all: cbn [mem set_mem set_file with_client with_price_task app
            Position.buy_price Position.highest_price Position.symbol
            Position.quantity Position.set_highest_price] in *.
  all: try congruence.
  all: repeat match goal with
       | H : Some _ = Some _ |- _ => inversion H; subst; clear H
       end.
  all: cbn [Position.buy_price Position.highest_price Position.symbol
            Position.quantity Position.set_highest_price] in *.
  all: try congruence.
  all: repeat match goal with
       | H : ?b = true |- context [?b] => rewrite H
       | H : ?b = false |- context [?b] => rewrite H
       end.
  all: cbn [andb].
  all: try (split; reflexivity).
  all: split; [reflexivity|]; split.
  all: try (intros Hrej; first [reflexivity | exfalso; eapply Hrej; reflexivity]).
  all: intros o Ho Hsym; try discriminate Ho.
  all: cbn [positions with_positions] in *.
  all: rewrite Hsym in *.
  all: try (rewrite lookup_insert_eq in *; discriminate).
  all: rewrite delete_insert_eq; reflexivity.
Qed.

(** C6, as amended.  For a position open under its own symbol, with the
    reference price set, the profit target not reached and the state
    file writable: with [hi = max(highest_price, price)] and
    [stop = hi * (1 - decrease_pct)], a sell order is sent exactly when
    [hi > buy_price], [price <= stop] and [price >= buy_price], and it is
    for the full quantity; without a sell order the position is held
    with its high-water mark at [hi], in particular when
    [price <= stop] but [price < buy_price]; when the sell order comes
    back, the position is removed and the reference price is the
    observed price. *)
Theorem trailing_stop m env price pos r :
  positions (mem m) !! Parameters.symbol (params (mem m)) = Some pos ->
  Position.symbol pos = Parameters.symbol (params (mem m)) ->
  last_reference_price (mem m) = Some r ->
  writes m = [] ->
  (price < Position.buy_price pos
           * (1 + Parameters.increase_pct (params (mem m))))%Q ->
  let sym := Parameters.symbol (params (mem m)) in
  let hi := py_max (Position.highest_price pos) price in
  let stop := (hi * (1 - Parameters.decrease_pct (params (mem m))))%Q in
  let st' := mem (exec (on_price env price) m) in
  let sent := orders_of (on_price env price) m in
  (forall s q,
     In (Sell s q) sent <->
     s = Position.symbol pos /\ q = Position.quantity pos
     /\ (Position.buy_price pos < hi)%Q
     /\ (price <= stop)%Q /\ (Position.buy_price pos <= price)%Q)
  /\ ((price <= stop)%Q -> (price < Position.buy_price pos)%Q -> sent = [])
  /\ (sent = [] ->
      positions st' !! sym = Some (Position.set_highest_price hi pos))
  /\ (forall o, sell_order env = Returns o -> sent <> [] ->
      positions st' = delete sym (positions (mem m))
      /\ last_reference_price st' = Some price).
Proof.
  intros Hpos Hsym Href Hw Htarget sym hi stop st' sent.
  apply Qle_bool_false in Htarget.
  pose proof (on_price_trailing env price m pos r Hpos Href Hw Htarget) as H.
  unfold wp in H. cbv zeta in H.
  fold sym hi stop st' sent in H.
  destruct (Qlt_bool (Position.buy_price pos) hi
            && (Qle_bool price stop
                && Qle_bool (Position.buy_price pos) price)) eqn:Efire.
  - (* the stop fires *)
    destruct H as (Hl & Hfail & Hfill).
    apply andb_prop in Efire as [Earm Efire].
    apply andb_prop in Efire as [Estop Ebuy].
    apply Qlt_bool_iff in Earm. apply Qle_bool_iff in Estop, Ebuy.
    split; [|split; [|split]].
    + intros s q. rewrite Hl. split.
      * intros Hin. in_cases Hin. auto.
      * intros (-> & -> & _). left. reflexivity.
    + intros _ Hlt. exfalso. apply (Qlt_not_le _ _ Hlt Ebuy).
    + rewrite Hl. discriminate.
    + intros o Ho _. rewrite (Hfill o Ho Hsym). split; reflexivity.
  - (* no sell *)
    destruct H as (Hl & Hm).
    split; [|split; [|split]].
    + intros s q. rewrite Hl. split; [intros []|].
      intros (_ & _ & Harm & Hstop & Hbuy). exfalso.
      apply Qlt_bool_iff in Harm. apply Qle_bool_iff in Hstop, Hbuy.
      rewrite Harm, Hstop, Hbuy in Efire. discriminate Efire.
    + intros _ _. exact Hl.
    + intros _. rewrite Hm. apply lookup_insert_eq.
    + intros o _ Hne. destruct (Hne Hl).
Qed.

(** Scenario C: held at a buy price of 97.9 with the high-water mark at
    100, the position is sold when the price falls back to the stop at
    98. *)
Lemma trailing_stop_witness :
  let pos := Position.mk "BTCUSDT" (1 # 2) (1958 # 20) 100 "12.5" in
  positions (mem Run.risen) !! "BTCUSDT" = Some pos
  /\ last_reference_price (mem Run.risen) = Some 100%Q
  /\ writes Run.risen = []
  /\ (98 < Position.buy_price pos
           * (1 + Parameters.increase_pct (params (mem Run.risen))))%Q
  /\ In (Sell "BTCUSDT" (1 # 2)) (orders_of (on_price Run.exchange 98) Run.risen)
  /\ last_reference_price (mem (exec (on_price Run.exchange 98) Run.risen))
     = Some 98%Q.
Proof.
  intros pos.
  assert (Hpos : positions (mem Run.risen)
                   !! Parameters.symbol (params (mem Run.risen)) = Some pos)
    by (vm_compute; reflexivity).
  assert (Href : last_reference_price (mem Run.risen) = Some 100%Q)
    by (vm_compute; reflexivity).
  assert (Hw : writes Run.risen = []) by (vm_compute; reflexivity).
  assert (Ht : (98 < Position.buy_price pos
                     * (1 + Parameters.increase_pct
                              (params (mem Run.risen))))%Q)
    by (vm_compute; reflexivity).
  assert (Hsym : Position.symbol pos
                 = Parameters.symbol (params (mem Run.risen)))
    by (vm_compute; reflexivity).
  destruct (trailing_stop Run.risen Run.exchange 98 pos 100 Hpos Hsym
              Href Hw Ht) as (Hiff & _ & _ & Hfill).
  assert (Hin : In (Sell "BTCUSDT" (1 # 2))
                   (orders_of (on_price Run.exchange 98) Run.risen)).
  { apply (proj2 (Hiff "BTCUSDT" (1 # 2)%Q)).
    repeat split; vm_compute; congruence. }
  split; [vm_compute; reflexivity|]. split; [exact Href|].
  split; [exact Hw|]. split; [exact Ht|]. split; [exact Hin|].
  refine (proj2 (Hfill (mkOrder [] (1 # 2) (515 # 10)) eq_refl _)).
  intros E. rewrite E in Hin. destruct Hin.
Defined.

(** C6 as stated fails in a reachable state: after [setcoin] the
    reference price is unset, and an observation at 98, which is at the
    stop (98) and above the buy price (97.9), sends no sell order. *)
Lemma bootstrap_skips_trailing_stop :
  reachable (mem Run.renamed)
  /\ exists pos,
       positions (mem Run.renamed) !! "BTCUSDT" = Some pos
       /\ Parameters.symbol (params (mem Run.renamed)) = "BTCUSDT"
       /\ (98 < Position.buy_price pos
                * (1 + Parameters.increase_pct (params (mem Run.renamed))))%Q
       /\ (Position.buy_price pos < py_max (Position.highest_price pos) 98)%Q
       /\ (98 <= py_max (Position.highest_price pos) 98
                 * (1 - Parameters.decrease_pct (params (mem Run.renamed))))%Q
       /\ (Position.buy_price pos <= 98)%Q
       /\ orders_of (on_price Run.exchange 98) Run.renamed = []
       /\ positions (mem (exec (on_price Run.exchange 98) Run.renamed))
            !! "BTCUSDT" = Some pos.
Proof.
  split; [apply reachable_renamed|].
  eexists.
  split; [vm_compute; reflexivity|].
  split; [vm_compute; reflexivity|].
  split; [vm_compute; reflexivity|].
  split; [vm_compute; reflexivity|].
  split; [vm_compute; congruence|].
  split; [vm_compute; congruence|].
  split; vm_compute; reflexivity.
Qed.

(** ** Persistence failures in the monitor loop *)

(** One pass of the loop in which [on_price] raises something else than
    a cancellation: the loop logs it, sleeps and goes on. *)
Lemma price_monitor_loop_survives t rest m p e :
  running (mem m) = true ->
  quote t = Returns p ->
  eval (on_price (env t) p) m = Raise e ->
  e <> CancelledError ->
  sleep t = Returns tt ->
  price_monitor_loop (t :: rest) m
  = (eval (price_monitor_loop rest) (exec (on_price (env t) p) m),
     exec (price_monitor_loop rest) (exec (on_price (env t) p) m),
     (orders_of (on_price (env t) p) m
      ++ orders_of (price_monitor_loop rest) (exec (on_price (env t) p) m))%list).
Proof.
  intros Hrun Hq He Hne Hs.
  unfold eval, exec, orders_of in *.
  cbn [price_monitor_loop].
  unfold bind at 1. unfold get_state at 1. rewrite Hrun.
  unfold bind at 1. unfold try_except, get_current_price.
  unfold bind at 1. rewrite Hq. cbn [await ret].
  unfold bind at 1.
  destruct (on_price (env t) p m) as [[r m'] l]. cbn in He. subst r.
  cbn [fst snd].
  rewrite Hs.
  assert (Hh : (match e with CancelledError => ret false | _ => ret true end) m'
               = (Ok true, m', [])) by (destruct e; try reflexivity; congruence).
  rewrite Hh.
  unfold bind, await, ret.
  destruct (price_monitor_loop rest m') as [[r2 m2] l2].
  cbn. rewrite !app_nil_r. reflexivity.
Qed.

(** C7, as amended.  When a checkpoint write fails during a pass of the
    monitor loop, [on_price] raises [OSError]; the loop catches it with
    its handler for [Exception], [running] stays true, and after the
    sleep the loop goes on to the next tick from the memory that
    [on_price] left. *)
Theorem persistence_failure_does_not_halt t rest m p :
  running (mem m) = true ->
  quote t = Returns p ->
  eval (on_price (env t) p) m = Raise OSError ->
  sleep t = Returns tt ->
  let m' := exec (on_price (env t) p) m in
  running (mem m') = true
  /\ eval (price_monitor_loop (t :: rest)) m
     = eval (price_monitor_loop rest) m'
  /\ exec (price_monitor_loop (t :: rest)) m
     = exec (price_monitor_loop rest) m'
  /\ orders_of (price_monitor_loop (t :: rest)) m
     = (orders_of (on_price (env t) p) m
        ++ orders_of (price_monitor_loop rest) m')%list.
Proof.
  intros Hrun Hq He Hs m'.
  split.
  - destruct (on_price_params (env t) p m) as [_ Hr].
    fold m' in Hr. rewrite Hr. exact Hrun.
  - unfold eval at 1, exec at 1, orders_of at 1.
    rewrite (price_monitor_loop_survives t rest m p OSError Hrun Hq He)
      by (discriminate || exact Hs).
    repeat split.
Qed.

(** The first write fails; the second tick is processed all the same. *)
Lemma persistence_failure_does_not_halt_witness :
  running (mem Run.disk_full) = true
  /\ eval (on_price Run.exchange 100) Run.disk_full = Raise OSError
  /\ running (mem (exec (on_price Run.exchange 100) Run.disk_full)) = true
  /\ exec (price_monitor_loop [Run.tick 100; Run.tick 101]) Run.disk_full
     = exec (price_monitor_loop [Run.tick 101])
            (exec (on_price Run.exchange 100) Run.disk_full).
Proof.
  assert (Hrun : running (mem Run.disk_full) = true)
    by (vm_compute; reflexivity).
  assert (He : eval (on_price (env (Run.tick 100)) 100) Run.disk_full
               = Raise OSError) by (vm_compute; reflexivity).
  destruct (persistence_failure_does_not_halt (Run.tick 100) [Run.tick 101]
              Run.disk_full 100 Hrun eq_refl He eq_refl)
    as (Hr & _ & Hx & _).
  split; [exact Hrun|]. split; [exact He|]. split; [exact Hr|]. exact Hx.
Defined.

(** C7 as stated fails: the write of the first pass fails and leaves a
    truncated file, yet [running] is still true after the pass, and the
    loop processes the next tick, which moves the reference price in
    memory to 101. *)
Lemma loop_continues_after_failed_write :
  writes Run.disk_full = [WriteFails]
  /\ running (mem Run.disk_full) = true
  /\ eval (on_price Run.exchange 100) Run.disk_full = Raise OSError
  /\ running (mem (exec (price_monitor_loop [Run.tick 100]) Run.disk_full))
     = true
  /\ disk (exec (price_monitor_loop [Run.tick 100]) Run.disk_full) = Garbled
  /\ last_reference_price
       (mem (exec (price_monitor_loop [Run.tick 100]) Run.disk_full))
     = Some 100%Q
  /\ last_reference_price
       (mem (exec (price_monitor_loop [Run.tick 100; Run.tick 101])
                  Run.disk_full))
     = Some 101%Q
  /\ running
       (mem (exec (price_monitor_loop [Run.tick 100; Run.tick 101])
                  Run.disk_full))
     = true.
Proof. repeat split; vm_compute; reflexivity. Qed.

(** ** Persistence round trip *)

Lemma Parameters_of_dict_asdict p :
  match Parameters_asdict p with
  | JObj d => Parameters_of_dict d = Ok p
  | _ => False
  end.
Proof. destruct p. reflexivity. Qed.

Lemma Position_of_dict_asdict v :
  match Position_asdict v with
  | JObj d => Position_of_dict d = Ok v
  | _ => False
  end.
Proof. destruct v. reflexivity. Qed.

Lemma positions_of_items_asdict (l : list (string * Position.t)) :
  positions_of_items (map (fun kv => (kv.1, Position_asdict kv.2)) l)
  = Ok (list_to_map l).
Proof.
  induction l as [|[k v] l IH].
  - reflexivity.
  - cbn [map positions_of_items fst snd].
    pose proof (Position_of_dict_asdict v) as Hv.
    destruct (Position_asdict v) as [| | | | |d]; try contradiction.
    cbn [as_items rbind]. rewrite Hv. cbn [rbind].
    rewrite IH. reflexivity.
Qed.

(** Reading the document that [save_state] writes gives the state back. *)
Lemma state_of_raw_serializable st :
  state_of_raw (serializable st) = Ok st.
Proof.
  unfold state_of_raw, serializable.
  cbn [as_items rbind jget String.eqb Ascii.eqb Bool.eqb].
  pose proof (Parameters_of_dict_asdict (params st)) as Hp.
  destruct (Parameters_asdict (params st)) as [| | | | |d]; try contradiction.
  cbn [as_items rbind]. rewrite Hp. cbn [rbind].
  rewrite positions_of_items_asdict. cbn [rbind].
  unfold keyword.
  cbn [jget String.eqb Ascii.eqb Bool.eqb as_num as_bool rbind].
  rewrite list_to_map_to_list.
  destruct st as [p rb ps [r|] run]; reflexivity.
Qed.

(** C8.  Loading the state file that [save_state] has written for a
    state gives that state back, with its parameters, budget, positions,
    reference price and [running] flag. *)
Theorem load_save_round_trip st m d w :
  state_of_raw (serializable st) = Ok st
  /\ eval (save_state st ;;; load_state) (set_file d (WriteOk :: w) m) = Ok st
  /\ eval (save_state st ;;; load_state) (set_file d [] m) = Ok st
  /\ disk (exec (save_state st) (set_file d (WriteOk :: w) m))
     = Doc (serializable st).
Proof.
  pose proof (state_of_raw_serializable st) as H.
  split; [exact H|].
  unfold eval, exec, bind, save_state, load_state, lift.
  cbn [writes set_file disk fst snd client price_task mem].
  rewrite H. repeat split.
Qed.

(** The state of the run, with its open position, survives the trip. *)
Example holding_round_trip :
  eval load_state Run.holding = Ok (mem Run.holding).
Proof.
  unfold eval, load_state.
  replace (disk Run.holding) with (Doc (serializable (mem Run.holding)))
    by (vm_compute; reflexivity).
  unfold lift. cbn [fst]. apply state_of_raw_serializable.
Qed.

(** ** Positions under other symbols *)

(** A price observation touches no position but the one stored under
    the configured symbol, and keeps that one under its own symbol. *)
Lemma on_price_frame env price m :
  own_key (mem m) ->
  wp (on_price env price) m (fun _ m' _ =>
    own_key (mem m')
    /\ forall k, k <> Parameters.symbol (params (mem m)) ->
         positions (mem m') !! k = positions (mem m) !! k).
Proof.
  intros Hown. unfold own_key in *.
  on_price_run.
  all: cbn [params positions with_positions with_last_reference_price
            with_remaining_budget] in *.
  all: try (pose proof (Hown _ eq_refl) as Hsym).
  all: cbn [Position.symbol Position.set_highest_price] in *.
  all: try rewrite Hsym in *.
  all: split; [intros pos' | intros k Hk].
  all: rewrite ?lookup_delete_eq, ?lookup_insert_eq.
  all: try (rewrite ?lookup_delete_ne, ?lookup_insert_ne by congruence;
            reflexivity).
  all: try discriminate.
  all: try (intros E; inversion E; subst; clear E; cbn; congruence).
  all: apply Hown.
Qed.

(** A property of memory that every price observation keeps is kept by
    the monitor loop. *)
Lemma price_monitor_loop_invariant (P : BotState -> Prop) :
  (forall env price m,
     P (mem m) -> wp (on_price env price) m (fun _ m' _ => P (mem m'))) ->
  forall ticks m,
    P (mem m) -> wp (price_monitor_loop ticks) m (fun _ m' _ => P (mem m')).
Proof.
  intros Hstep ticks.
  induction ticks as [|t rest IH]; intros m HP.
  - exact HP.
  - cbn [price_monitor_loop]. unfold get_current_price.
    wp_step. wp_step. wp_step; [|wp_step; exact HP].
    wp_step. apply wp_try_except.
    wp_step. wp_step.
    + wp_step. eapply wp_mono; [|apply (Hstep (env t) a m HP)].
      intros [[]|e] m' l Hm'; cbn beta iota.
      * wp_step. wp_step. wp_step; [|exact Hm'].
        eapply wp_mono; [|apply (IH m' Hm')]. auto.
      * assert (Hrest : wp (await (sleep t);;; price_monitor_loop rest) m'
                          (fun _ m'' _ => P (mem m''))).
        { wp_step. wp_step; [|exact Hm'].
          eapply wp_mono; [|apply (IH m' Hm')]. auto. }
        destruct e; cbn beta iota; wp_step;
          first [ eapply wp_mono; [|exact Hrest]; auto
                | wp_step; exact Hm' ].
    + assert (Hrest : wp (await (sleep t);;; price_monitor_loop rest) m
                        (fun _ m'' _ => P (mem m''))).
      { wp_step. wp_step; [|exact HP].
        eapply wp_mono; [|apply (IH m HP)]. auto. }
      destruct e; cbn beta iota; wp_step;
        first [ eapply wp_mono; [|exact Hrest]; auto
              | wp_step; exact HP ].
Qed.

Lemma keyed_own_key st : keyed st -> own_key st.
Proof. intros Hk pos Hpos. exact (Hk _ _ Hpos). Qed.

Lemma reachable_keyed st : reachable st -> keyed st.
Proof.
  intros Hr k pos Hpos.
  exact (proj1 (wf_positions _ (reachable_wf _ Hr) _ _ Hpos)).
Qed.

(** What [setcoin] does to memory, whether or not its write succeeds. *)
Lemma setcoin_mem symbol m :
  mem (exec (setcoin symbol) m)
  = with_last_reference_price None
      (with_params (Parameters.set_symbol (upper symbol) (params (mem m)))
                   (mem m)).
Proof.
  change (wp (setcoin symbol) m (fun _ m' _ =>
    mem m' = with_last_reference_price None
               (with_params
                  (Parameters.set_symbol (upper symbol) (params (mem m)))
                  (mem m)))).
  unfold setcoin. wp_run. all: reflexivity.
Qed.

Lemma reset_mem m :
  mem (exec reset m)
  = mkBotState Parameters.default
               (Parameters.allocated_budget Parameters.default) ∅ None false.
Proof.
  change (wp reset m (fun _ m' _ =>
    mem m' = mkBotState Parameters.default
               (Parameters.allocated_budget Parameters.default) ∅ None false)).
  unfold reset. wp_run. all: reflexivity.
Qed.

(** The frame of the monitor loop. *)
Lemma price_monitor_loop_frame ticks m :
  own_key (mem m) ->
  forall k, k <> Parameters.symbol (params (mem m)) ->
    positions (mem (exec (price_monitor_loop ticks) m)) !! k
    = positions (mem m) !! k.
Proof.
  intros Hown k Hk.
  pose (P := fun st : BotState =>
               own_key st /\ params st = params (mem m)
               /\ positions st !! k = positions (mem m) !! k).
  assert (HP : wp (price_monitor_loop ticks) m (fun _ m' _ => P (mem m'))).
  { apply price_monitor_loop_invariant; [|repeat split; assumption].
    intros env price m1 (Hown1 & Hpar1 & Hpos1).
    pose proof (on_price_frame env price m1 Hown1) as [Hown2 Hframe].
    pose proof (on_price_params env price m1) as [Hpar2 _].
    repeat split.
    - exact Hown2.
    - rewrite Hpar2. exact Hpar1.
    - rewrite Hframe; [exact Hpos1|]. rewrite Hpar1. exact Hk. }
  exact (proj2 (proj2 HP)).
Qed.

(** C9, as amended.  In a state whose positions are each stored under
    their own symbol, as in every reachable state, a price observation,
    and any number of passes of the monitor loop, leave every position
    stored under another symbol than the configured one as it is.
    [setcoin] changes the configured symbol and unsets the reference
    price without touching the positions, so that the position of the
    old symbol stays as it is through the observations that follow;
    [reset] drops all positions. *)
Theorem other_symbols_untouched m env price ticks symbol :
  keyed (mem m) ->
  let sym := Parameters.symbol (params (mem m)) in
  let renamed := exec (setcoin symbol) m in
  (forall k, k <> sym ->
     positions (mem (exec (on_price env price) m)) !! k
     = positions (mem m) !! k)
  /\ (forall k, k <> sym ->
        positions (mem (exec (price_monitor_loop ticks) m)) !! k
        = positions (mem m) !! k)
  /\ positions (mem renamed) = positions (mem m)
  /\ Parameters.symbol (params (mem renamed)) = upper symbol
  /\ last_reference_price (mem renamed) = None
  /\ (forall k, k <> upper symbol ->
        positions (mem (exec (price_monitor_loop ticks) renamed)) !! k
        = positions (mem m) !! k)
  /\ positions (mem (exec reset m)) = ∅.
Proof.
  intros Hkeyed sym renamed.
  assert (Hren : mem renamed
                 = with_last_reference_price None
                     (with_params
                        (Parameters.set_symbol (upper symbol) (params (mem m)))
                        (mem m))) by apply setcoin_mem.
  split; [|split; [|split; [|split; [|split; [|split]]]]].
  - apply (on_price_frame env price m (keyed_own_key _ Hkeyed)).
  - apply price_monitor_loop_frame, keyed_own_key, Hkeyed.
  - rewrite Hren. reflexivity.
  - rewrite Hren. reflexivity.
  - rewrite Hren. reflexivity.
  - intros k Hk.
    rewrite price_monitor_loop_frame.
    + rewrite Hren. reflexivity.
    + apply keyed_own_key. rewrite Hren. exact Hkeyed.
    + rewrite Hren. exact Hk.
  - rewrite reset_mem. reflexivity.
Qed.

(** The held position is untouched while the bot watches ETHUSDT. *)
Lemma other_symbols_untouched_witness :
  keyed (mem Run.holding)
  /\ positions
       (mem (exec (price_monitor_loop [Run.tick 3000; Run.tick 2900])
                  (exec (setcoin "ethusdt") Run.holding))) !! "BTCUSDT"
     = positions (mem Run.holding) !! "BTCUSDT".
Proof.
  pose proof (reachable_keyed _ reachable_holding) as Hk.
  split; [exact Hk|].
  destruct (other_symbols_untouched Run.holding Run.exchange 3000
              [Run.tick 3000; Run.tick 2900] "ethusdt" Hk)
    as (_ & _ & _ & _ & _ & H & _).
  apply H. discriminate.
Defined.

(** C9 as stated fails in a state that [load_state] can deliver from an
    edited file: the position stored under BTCUSDT carries the symbol
    ETHUSDT, and when it is sold at 103 the sell order is for ETHUSDT
    and the position stored under ETHUSDT is the one deleted. *)
Lemma mislabelled_position_closes_another :
  eval load_state (set_file (Doc (serializable (mem Run.edited))) [] Run.boot)
    = Ok (mem Run.edited)
  /\ Parameters.symbol (params (mem Run.edited)) = "BTCUSDT"
  /\ is_Some (positions (mem Run.edited) !! "ETHUSDT")
  /\ orders_of (on_price Run.exchange 103) Run.edited = [Sell "ETHUSDT" 1]
  /\ positions (mem (exec (on_price Run.exchange 103) Run.edited))
       !! "ETHUSDT" = None
  /\ is_Some (positions (mem (exec (on_price Run.exchange 103) Run.edited))
                !! "BTCUSDT").
Proof.
  split; [apply state_of_raw_serializable|].
  split; [reflexivity|].
  split; [eexists; vm_compute; reflexivity|].
  split; [vm_compute; reflexivity|].
  split; [vm_compute; reflexivity|].
  eexists; vm_compute; reflexivity.
Qed.

(** ** Start and stop *)

Lemma start_running new_client m :
  running (mem m) = true -> start new_client m = (Ok tt, m, []).
Proof. intros H. unfold start, bind, get_state. rewrite H. reflexivity. Qed.

Lemma stop_not_running close_connection m :
  running (mem m) = false -> stop close_connection m = (Ok tt, m, []).
Proof. intros H. unfold stop, bind, get_state. rewrite H. reflexivity. Qed.

(** After [start], the bot runs, or [create_binance_client] raised and
    nothing has changed. *)
Lemma start_outcome new_client m :
  wp (start new_client) m (fun _ m' _ =>
    running (mem m') = true \/ m' = m).
Proof.
  unfold start. wp_run.
  all: first [left; reflexivity | left; assumption | right; reflexivity].
Qed.

Lemma stop_outcome close_connection m :
  wp (stop close_connection) m (fun _ m' _ => running (mem m') = false).
Proof.
  unfold stop. wp_run.
  all: first [reflexivity | apply negb_true_iff; assumption].
Qed.

(** C10.  [start()] called while [running] is true returns at once:
    no field of the state changes, nothing is written, no client and no
    task is created; [stop()] called while [running] is false returns at
    once as well, and no task is cancelled.  Hence calling either of
    them twice leaves the machine as calling it once. *)
Theorem start_stop_idempotent m new_client close_connection :
  (running (mem m) = true -> start new_client m = (Ok tt, m, []))
  /\ (running (mem m) = false -> stop close_connection m = (Ok tt, m, []))
  /\ exec (start new_client) (exec (start new_client) m)
     = exec (start new_client) m
  /\ exec (stop close_connection) (exec (stop close_connection) m)
     = exec (stop close_connection) m.
Proof.
  split; [apply start_running|]. split; [apply stop_not_running|]. split.
  - destruct (start_outcome new_client m) as [Hrun | Hsame].
    + unfold exec at 1. rewrite (start_running _ _ Hrun). reflexivity.
    + fold (exec (start new_client) m) in Hsame. rewrite Hsame.
      exact Hsame.
  - pose proof (stop_outcome close_connection m) as Hstop.
    unfold exec at 1. rewrite (stop_not_running _ _ Hstop). reflexivity.
Qed.

(** The started bot is started again, the fresh one is stopped. *)
Lemma start_stop_idempotent_witness :
  running (mem Run.started) = true
  /\ start (Returns tt) Run.started = (Ok tt, Run.started, [])
  /\ running (mem Run.boot) = false
  /\ stop (Returns tt) Run.boot = (Ok tt, Run.boot, []).
Proof.
  assert (H1 : running (mem Run.started) = true) by (vm_compute; reflexivity).
  assert (H2 : running (mem Run.boot) = false) by reflexivity.
  split; [exact H1|].
  split; [exact (proj1 (start_stop_idempotent Run.started (Returns tt)
                          (Returns tt)) H1)|].
  split; [exact H2|].
  exact (proj1 (proj2 (start_stop_idempotent Run.boot (Returns tt)
                         (Returns tt))) H2).
Defined.

(** ** The scenarios of the specification *)

(** Scenario B: bought at 100, with the target at 3%, the position is
    sold at 103 and the reference price becomes 103. *)
Example scenario_B :
  orders_of (on_price Run.exchange 103) (Run.bought_at_100 100)
    = [Sell "BTCUSDT" 1]
  /\ positions (mem (exec (on_price Run.exchange 103) (Run.bought_at_100 100)))
     = ∅
  /\ last_reference_price
       (mem (exec (on_price Run.exchange 103) (Run.bought_at_100 100)))
     = Some 103%Q.
Proof. repeat split; vm_compute; reflexivity. Qed.

(** Scenario C: bought at 100 with the high-water mark at 110, the
    position is sold at 107, below the stop of 107.8; a position that
    never rose is held at 90. *)
Example scenario_C :
  orders_of (on_price Run.exchange 107) (Run.bought_at_100 110)
    = [Sell "BTCUSDT" 1]
  /\ orders_of (on_price Run.exchange 90) (Run.bought_at_100 100) = []
  /\ orders_of (on_price Run.exchange 90) (Run.bought_at_100 110) = [].
Proof. repeat split; vm_compute; reflexivity. Qed.

(** Scenario D: with no position and the reference price at 100, the
    prices 105 and 108 send no order and move the reference price to
    108. *)
Example scenario_D :
  orders_of (price_monitor_loop [Run.tick 105; Run.tick 108])
            Run.waiting_at_100 = []
  /\ last_reference_price
       (mem (exec (price_monitor_loop [Run.tick 105; Run.tick 108])
                  Run.waiting_at_100))
     = Some 108%Q.
Proof. repeat split; vm_compute; reflexivity. Qed.

(** Stopping the started bot cancels the task and closes the client. *)
Example stop_started :
  let m := exec (stop (Returns tt)) Run.started in
  running (mem m) = false
  /\ price_task m = Some Cancelled
  /\ client m = Some ConnectionClosed.
Proof. repeat split; vm_compute; reflexivity. Qed.

(** With less budget than one trade amount, a price at the buy threshold
    changes nothing. *)
Example insufficient_budget_is_idle :
  let m := set_mem (with_remaining_budget 49 (mem Run.waiting_at_100))
                   Run.waiting_at_100 in
  on_price Run.exchange 97 m = (Ok tt, m, []).
Proof. vm_compute. reflexivity. Qed.

(** * More properties of the source *)

(** ** Persistence *)

(** A write that succeeds leaves the document of the state in the file. *)
Lemma wp_save_state_doc st m (Q : result unit -> Machine -> list Action -> Prop) :
  (forall w, Q (Ok tt) (set_file (Doc (serializable st)) w m) []) ->
  (forall d w, Q (Raise OSError) (set_file d w m) []) ->
  wp (save_state st) m Q.
Proof.
  intros Hok Herr. unfold wp, eval, exec, orders_of, save_state.
  destruct (writes m) as [|[| |] w]; simpl; auto.
Qed.

Lemma wp_checkpoint_doc m (Q : result unit -> Machine -> list Action -> Prop) :
  (forall w, Q (Ok tt) (set_file (Doc (serializable (mem m))) w m) []) ->
  (forall d w, Q (Raise OSError) (set_file d w m) []) ->
  wp checkpoint m Q.
Proof.
  intros Hok Herr. unfold checkpoint. apply wp_bind, wp_get_state.
  apply wp_save_state_doc; assumption.
Qed.

Ltac wp_step_doc :=
  lazymatch goal with
  | |- wp checkpoint _ _ =>
      apply wp_checkpoint_doc; [intros ? | intros ? ?]; cbn beta iota
  | _ => wp_step
  end.

Ltac wp_run_doc :=
  repeat wp_step_doc;
  cbn [mem disk set_mem set_file with_client with_price_task app].

(** X1. When [on_price] returns without an exception, either the machine
    is exactly as before, or the state file holds the document of the
    state that is in memory. *)
Theorem on_price_persists env price m :
  eval (on_price env price) m = Ok tt ->
  let m' := exec (on_price env price) m in
  m' = m \/ disk m' = Doc (serializable (mem m')).
Proof.
  change (wp (on_price env price) m (fun r m' _ =>
    r = Ok tt -> m' = m \/ disk m' = Doc (serializable (mem m')))).
  unfold on_price, sell_position, market_buy, market_sell, del_position.
  wp_run_doc.
  all: intros Hr; try discriminate Hr.
  all: first [left; reflexivity | right; reflexivity].
Qed.

(** X2. When a chat command returns without an exception, either memory
    is as before, or the state file holds the document of the state that
    is in memory: every accepted change is written before the command
    answers. *)
Theorem command_persists i m :
  (forall t, i <> Pass t) ->
  eval (step i) m = Ok tt ->
  let m' := exec (step i) m in
  mem m' = mem m \/ disk m' = Doc (serializable (mem m')).
Proof.
  intros Hi.
  change (wp (step i) m (fun r m' _ =>
    r = Ok tt -> mem m' = mem m \/ disk m' = Doc (serializable (mem m')))).
  destruct i; cbn [step]; try (exfalso; eapply Hi; reflexivity);
    unfold setcoin, set_decrease, set_increase, set_amount, set_budget,
      start_command, stop_command, start, stop, status, reset;
    wp_run_doc.
  all: intros Hr; try discriminate Hr.
  all: first [left; reflexivity | right; reflexivity].
Qed.

Lemma on_price_persists_witness :
  eval (on_price Run.exchange (979 # 10)) Run.watching = Ok tt
  /\ disk Run.holding = Doc (serializable (mem Run.holding)).
Proof.
  assert (He : eval (on_price Run.exchange (979 # 10)) Run.watching = Ok tt)
    by (vm_compute; reflexivity).
  split; [exact He|].
  destruct (on_price_persists Run.exchange (979 # 10) Run.watching He)
    as [Hsame | Hdoc].
  - apply (f_equal (fun x => remaining_budget (mem x))) in Hsame.
    vm_compute in Hsame. discriminate Hsame.
  - vm_compute. vm_compute in Hdoc. exact Hdoc.
Defined.

Lemma command_persists_witness :
  eval (step (Setcoin "ethusdt")) Run.holding = Ok tt
  /\ disk (exec (step (Setcoin "ethusdt")) Run.holding)
     = Doc (serializable (mem (exec (step (Setcoin "ethusdt")) Run.holding))).
Proof.
  assert (He : eval (step (Setcoin "ethusdt")) Run.holding = Ok tt)
    by (vm_compute; reflexivity).
  split; [exact He|].
  destruct (command_persists (Setcoin "ethusdt") Run.holding
              ltac:(discriminate) He) as [Hsame | Hdoc].
  - apply (f_equal (fun x => Parameters.symbol (params x))) in Hsame.
    vm_compute in Hsame. discriminate Hsame.
  - exact Hdoc.
Defined.

(** ** Commands and the strategy without a sale *)

(** X3. [set_decrease] and [set_increase] reject a value outside (0, 1),
    and [set_amount] and [set_budget] a value that is not positive: the
    machine is left exactly as it was and nothing is written. *)
Theorem setters_reject_invalid m (x : Q) :
  ((x <= 0)%Q \/ (1 <= x)%Q ->
     exec (set_decrease x) m = m /\ exec (set_increase x) m = m
     /\ orders_of (set_decrease x) m = [] /\ orders_of (set_increase x) m = [])
  /\ ((x <= 0)%Q ->
     exec (set_amount x) m = m /\ exec (set_budget x) m = m
     /\ orders_of (set_amount x) m = [] /\ orders_of (set_budget x) m = []).
Proof.
  split.
  - intros Hx.
    assert (Hb : Qle_bool x 0 || Qle_bool 1 x = true).
    { apply orb_true_iff. destruct Hx as [H|H]; [left|right];
        apply Qle_bool_iff; exact H. }
    unfold exec, orders_of, set_decrease, set_increase. rewrite Hb.
    repeat split.
  - intros Hx. apply Qle_bool_iff in Hx.
    unfold exec, orders_of, set_amount, set_budget. rewrite Hx.
    repeat split.
Qed.

(** X4. With no position open, a price at or below the buy threshold and
    less budget left than one trade amount, [on_price] changes nothing,
    writes nothing and sends no order. *)
Theorem insufficient_budget_changes_nothing env price m r :
  positions (mem m) !! Parameters.symbol (params (mem m)) = None ->
  last_reference_price (mem m) = Some r ->
  (price <= r * (1 - Parameters.decrease_pct (params (mem m))))%Q ->
  (remaining_budget (mem m) < Parameters.tx_amount (params (mem m)))%Q ->
  on_price env price m = (Ok tt, m, []).
Proof.
  intros Hpos Href Hp Hb.
  apply Qle_bool_iff in Hp. apply Qle_bool_false in Hb.
  unfold on_price, bind, get_state.
  cbn [fst snd]. rewrite Href, Hpos, Hp, Hb. reflexivity.
Qed.

(** X5. With no position open and the price above the buy threshold, the
    reference price becomes [max(reference, price)] and no order is sent;
    when the price is not above the reference nothing changes at all. *)
Theorem reference_price_ratchets env price m r :
  positions (mem m) !! Parameters.symbol (params (mem m)) = None ->
  last_reference_price (mem m) = Some r ->
  (r * (1 - Parameters.decrease_pct (params (mem m))) < price)%Q ->
  let m' := exec (on_price env price) m in
  mem m' = with_last_reference_price (Some (py_max r price)) (mem m)
  /\ orders_of (on_price env price) m = []
  /\ (price <= r -> m' = m)%Q.
Proof.
  intros Hpos Href Hp.
  apply Qle_bool_false in Hp.
  change (wp (on_price env price) m (fun _ m' l =>
    mem m' = with_last_reference_price (Some (py_max r price)) (mem m)
    /\ l = [] /\ ((price <= r)%Q -> m' = m))).
  on_price_run.
  all: try congruence.
  all: repeat match goal with
       | H : Some _ = Some _ |- _ => inversion H; subst; clear H
       end.
  all: unfold py_max.
  all: repeat match goal with
       | H : ?b = _ |- context [?b] => rewrite H
       end.
  all: split; [|split; [reflexivity|]].
  all: try reflexivity.
  all: try (intros Hle; exfalso;
            match goal with
            | H : Qlt_bool _ _ = true |- _ => apply Qlt_bool_iff in H;
                apply (Qlt_not_le _ _ H Hle)
            end).
  clear - Heqo. revert Heqo. destruct (mem m). cbn. intros ->. reflexivity.
Qed.

Lemma setters_reject_invalid_witness :
  exec (set_decrease 1) Run.holding = Run.holding
  /\ exec (set_budget 0) Run.holding = Run.holding.
Proof.
  destruct (setters_reject_invalid Run.holding 1) as [H1 _].
  destruct (setters_reject_invalid Run.holding 0) as [_ H0].
  split.
  - apply H1. right. apply Qle_refl.
  - apply H0, Qle_refl.
Defined.

Lemma insufficient_budget_changes_nothing_witness :
  on_price Run.exchange 97 More.poor = (Ok tt, More.poor, []).
Proof.
  apply (insufficient_budget_changes_nothing Run.exchange 97 More.poor 100).
  - reflexivity.
  - reflexivity.
  - vm_compute. discriminate.
  - vm_compute. reflexivity.
Defined.

Lemma reference_price_ratchets_witness :
  mem (exec (on_price Run.exchange 105) Run.waiting_at_100)
  = with_last_reference_price (Some (py_max 100 105)) (mem Run.waiting_at_100).
Proof.
  refine (proj1 (reference_price_ratchets Run.exchange 105
                   Run.waiting_at_100 100 _ _ _)).
  - reflexivity.
  - reflexivity.
  - vm_compute. reflexivity.
Defined.

(** ** The monitor loop *)

Lemma on_price_one_order env price m :
  wp (on_price env price) m (fun _ _ l => (length l <= 1)%nat).
Proof. on_price_run. all: cbn; lia. Qed.

(** X6. One price observation sends at most one order, and the monitor
    loop at most one order per tick. *)
Theorem one_order_per_tick ticks m answers price :
  (length (orders_of (on_price answers price) m) <= 1)%nat
  /\ (length (orders_of (price_monitor_loop ticks) m) <= length ticks)%nat.
Proof.
  split; [apply on_price_one_order|].
  change (wp (price_monitor_loop ticks) m
            (fun _ _ l => (length l <= length ticks)%nat)).
  revert m. induction ticks as [|t rest IH]; intros m.
  - apply wp_ret. cbn. lia.
  - cbn [price_monitor_loop]. unfold get_current_price.
    assert (Hrest : forall m' l0, (length l0 <= 1)%nat ->
              wp (await (sleep t);;; price_monitor_loop rest) m'
                 (fun _ _ l' => (length (l0 ++ l') <= length (t :: rest))%nat)).
    { intros m' l0 Hl0. wp_step. wp_step.
      - eapply wp_mono; [|apply (IH m')].
        cbn beta. intros _ _ l Hl. rewrite length_app. cbn in *. lia.
      - rewrite length_app. cbn in *. lia. }
    wp_step. wp_step. wp_step; [|wp_step; cbn; lia].
    wp_step. apply wp_try_except.
    wp_step. wp_step.
    + wp_step. eapply wp_mono; [|apply (on_price_one_order (env t) a m)].
      intros [[]|e] m' l Hl; cbn beta iota.
      * wp_step. cbn [app].
        eapply wp_mono; [|apply (Hrest m' l Hl)].
        cbn beta. intros _ _ l'. rewrite ?app_nil_l, ?app_nil_r. auto.
      * destruct e; cbn beta iota; wp_step; cbn [app].
        all: first [ eapply wp_mono; [|apply (Hrest m' l Hl)];
                     cbn beta; intros _ _ l';
                     rewrite ?app_nil_l, ?app_nil_r; auto
                   | wp_step; rewrite ?app_nil_r; cbn in *; lia ].
    + destruct e; cbn beta iota; wp_step; cbn [app].
      all: first [ eapply wp_mono; [|apply (Hrest m [] ltac:(cbn; lia))];
                   cbn beta; intros _ _ l'; rewrite ?app_nil_l; auto
                 | wp_step; cbn; lia ].
Qed.

Lemma price_monitor_loop_idle ticks m :
  running (mem m) = false -> price_monitor_loop ticks m = (Ok tt, m, []).
Proof.
  intros H. destruct ticks as [|t rest]; [reflexivity|].
  cbn [price_monitor_loop]. unfold bind, get_state. rewrite H. reflexivity.
Qed.

(** X7. The monitor loop never changes the [running] flag or the
    parameters, whatever happens in its ticks. *)
Theorem loop_keeps_running_and_params ticks m :
  running (mem (exec (price_monitor_loop ticks) m)) = running (mem m)
  /\ params (mem (exec (price_monitor_loop ticks) m)) = params (mem m).
Proof.
  pose (P := fun st : BotState =>
               running st = running (mem m) /\ params st = params (mem m)).
  apply (price_monitor_loop_invariant P); [|split; reflexivity].
  intros e price m1 [Hr Hp].
  destruct (on_price_params e price m1) as [Hp' Hr'].
  split; [rewrite Hr' | rewrite Hp']; assumption.
Qed.

(** X8. When the price cannot be fetched, the tick changes nothing: a
    cancellation ends the loop, any other exception is logged and the
    loop goes on with the next tick after the sleep, or ends with the
    cancellation that interrupts the sleep. *)
Theorem fetch_failure_skips_tick t rest m e :
  running (mem m) = true ->
  quote t = Throws e ->
  (e = CancelledError -> price_monitor_loop (t :: rest) m = (Ok tt, m, []))
  /\ (e <> CancelledError -> sleep t = Returns tt ->
      price_monitor_loop (t :: rest) m = price_monitor_loop rest m)
  /\ (e <> CancelledError -> sleep t = Throws CancelledError ->
      price_monitor_loop (t :: rest) m = (Raise CancelledError, m, [])).
Proof.
  intros Hrun Hq.
  cbn [price_monitor_loop].
  unfold bind, try_except, get_state, get_current_price.
  rewrite Hrun, Hq. cbn [await raise ret fst snd].
  split; [|split].
  - intros ->. reflexivity.
  - intros Hne Hs. rewrite Hs.
    destruct e; try congruence; cbn;
      destruct (price_monitor_loop rest m) as [[r2 m2] l2]; reflexivity.
  - intros Hne Hs. rewrite Hs.
    destruct e; try congruence; reflexivity.
Qed.

(** X9. The monitor loop never increases [remaining_budget]: the proceeds
    of a sale are not returned to the budget. *)
Theorem budget_never_grows ticks m :
  (0 <= Parameters.tx_amount (params (mem m)))%Q ->
  (remaining_budget (mem (exec (price_monitor_loop ticks) m))
   <= remaining_budget (mem m))%Q.
Proof.
  intros Htx.
  pose (P := fun st : BotState =>
               params st = params (mem m)
               /\ (remaining_budget st <= remaining_budget (mem m))%Q).
  assert (HP : wp (price_monitor_loop ticks) m (fun _ m' _ => P (mem m'))).
  { apply price_monitor_loop_invariant; [|split; [reflexivity|apply Qle_refl]].
    intros e price m1 [Hp Hb].
    destruct (on_price_params e price m1) as [Hp' _].
    destruct (on_price_budget e price m1) as [Hchg _].
    split; [rewrite Hp'; exact Hp|].
    destruct Hchg as [-> | [-> _]]; [exact Hb|].
    rewrite Hp. lra. }
  exact (proj2 HP).
Qed.

(** X10. [reset] puts the default state in memory, with the whole default
    budget, no position, no reference price and [running] false, even
    when its write fails; it touches neither the client nor the monitor
    task, and the loop does nothing more once it sees the flag. *)
Theorem reset_restores_defaults ticks m :
  let m' := exec reset m in
  mem m' = fresh_state
  /\ client m' = client m /\ price_task m' = price_task m
  /\ price_monitor_loop ticks m' = (Ok tt, m', []).
Proof.
  intros m'.
  assert (H : wp reset m (fun _ m1 _ =>
            mem m1 = fresh_state /\ client m1 = client m
            /\ price_task m1 = price_task m)).
  { unfold reset. wp_run. all: repeat split. }
  destruct H as (Hm & Hc & Ht). fold m' in Hm, Hc, Ht.
  repeat split; try assumption.
  apply price_monitor_loop_idle. rewrite Hm. reflexivity.
Qed.

(** X11. [stop()] on a running bot leaves [running] false in memory even
    when the write or the closing of the connection fails, so the monitor
    loop does nothing more; when it returns normally the state file holds
    the state, the task is cancelled and the client closed. *)
Theorem stop_halts_the_loop close_connection ticks m :
  let m' := exec (stop close_connection) m in
  running (mem m) = true ->
  running (mem m') = false
  /\ price_monitor_loop ticks m' = (Ok tt, m', [])
  /\ (eval (stop close_connection) m = Ok tt ->
      disk m' = Doc (serializable (mem m'))
      /\ (price_task m = None -> price_task m' = None)
      /\ (price_task m <> None -> price_task m' = Some Cancelled)
      /\ (client m <> None -> client m' = Some ConnectionClosed)).
Proof.
  intros m' Hrun.
  assert (H : wp (stop close_connection) m (fun r m1 _ =>
            running (mem m1) = false
            /\ (r = Ok tt ->
                disk m1 = Doc (serializable (mem m1))
                /\ (price_task m = None -> price_task m1 = None)
                /\ (price_task m <> None -> price_task m1 = Some Cancelled)
                /\ (client m <> None -> client m1 = Some ConnectionClosed)))).
  { unfold stop. wp_run_doc.
    all: try (rewrite Hrun in *; discriminate).
    all: split; [reflexivity|].
    all: intros Hr; try discriminate Hr.
    all: cbn [price_task client set_file set_mem with_price_task with_client] in *.
    all: repeat split; try reflexivity; try congruence. }
  destruct H as (Hr & Hok). fold m' in Hr, Hok.
  split; [exact Hr|]. split; [|exact Hok].
  apply price_monitor_loop_idle, Hr.
Qed.

Lemma fetch_failure_skips_tick_witness :
  price_monitor_loop [More.no_quote; Run.tick 100] Run.started
  = price_monitor_loop [Run.tick 100] Run.started.
Proof.
  refine (proj1 (proj2 (fetch_failure_skips_tick More.no_quote [Run.tick 100]
                          Run.started OtherError _ _)) _ _).
  - vm_compute. reflexivity.
  - reflexivity.
  - discriminate.
  - reflexivity.
Defined.

Lemma budget_never_grows_witness :
  (remaining_budget
     (mem (exec (price_monitor_loop [Run.tick (979 # 10); Run.tick 103])
                Run.watching))
   <= remaining_budget (mem Run.watching))%Q.
Proof.
  apply (budget_never_grows [Run.tick (979 # 10); Run.tick 103] Run.watching).
  vm_compute. discriminate.
Defined.

Lemma stop_halts_the_loop_witness :
  running (mem Run.started) = true
  /\ price_monitor_loop [Run.tick 100]
       (exec (stop (Returns tt)) Run.started)
     = (Ok tt, exec (stop (Returns tt)) Run.started, []).
Proof.
  assert (Hr : running (mem Run.started) = true) by (vm_compute; reflexivity).
  split; [exact Hr|].
  exact (proj1 (proj2 (stop_halts_the_loop (Returns tt) [Run.tick 100]
                         Run.started Hr))).
Defined.

(** ** Orders *)

(** X13. Reading an order fails exactly when it lists fills whose
    quantities sum to zero, and then with [ZeroDivisionError]. *)
Theorem buy_fill_without_quantity order price e :
  fill_summary order price = Raise e <->
  e = ZeroDivisionError /\ fills order <> []
  /\ (sum_qty (fills order) == 0)%Q.
Proof.
  unfold fill_summary. destruct (fills order) as [|f fs] eqn:Ef.
  - split; [discriminate|]. intros (_ & H & _). congruence.
  - destruct (Qeq_bool (sum_qty (f :: fs)) 0) eqn:E.
    + apply Qeq_bool_iff in E. split.
      * intros H. inversion H. repeat split; [discriminate | exact E].
      * intros (-> & _). reflexivity.
    + split; [discriminate|]. intros (_ & _ & Hz).
      apply Qeq_bool_iff in Hz. congruence.
Qed.

Lemma round_down_pos (x : Q) : (0 < round_down x)%Z <-> (1 <= x)%Q.
Proof.
  destruct x as [n d]. unfold round_down, Qle. cbn [Qnum Qden].
  rewrite Z.mul_1_l, Z.mul_1_r.
  split.
  - intros H. destruct (Z_lt_le_dec n (Zpos d)) as [Hlt|Hle]; [|exact Hle].
    exfalso. destruct (Z_lt_le_dec n 0) as [Hneg|Hnn].
    + assert (Hq : (0 <= (- n) ÷ Zpos d)%Z) by (apply Z.quot_pos; lia).
      rewrite Z.quot_opp_l in Hq by lia. lia.
    + rewrite Z.quot_small in H by lia. lia.
  - intros H. apply Z.quot_str_pos. lia.
Qed.

Lemma lot_size_test (x step : Q) :
  (0 < step)%Q ->
  Qle_bool (inject_Z (round_down (x / step)) * step) 0 = true
  <-> (x < step)%Q.
Proof.
  intros Hs. rewrite Qle_bool_iff.
  pose proof (round_down_pos (x / step)) as Hr.
  split.
  - intros H. apply Qnot_le_lt. intros Hle.
    assert (H1 : (1 <= x / step)%Q)
      by (apply Qle_shift_div_l; [exact Hs | lra]).
    apply Hr in H1.
    assert (H2 : (0 < inject_Z (round_down (x / step)))%Q).
    { unfold Qlt. cbn. lia. }
    assert (H3 : (0 < inject_Z (round_down (x / step)) * step)%Q)
      by (apply Qmult_lt_0_compat; assumption).
    apply (Qlt_not_le _ _ H3 H).
  - intros H.
    assert (H1 : ~ (1 <= x / step)%Q).
    { intros Hle. apply (Qlt_not_le _ _ H).
      apply (Qmult_le_compat_r _ _ step) in Hle; [|lra].
      assert (E : (x / step * step == x)%Q) by (field; lra).
      lra. }
    assert (H2 : (round_down (x / step) <= 0)%Z).
    { destruct (Z_lt_le_dec 0 (round_down (x / step))) as [Hp|Hn]; [|exact Hn].
      exfalso. apply H1, Hr, Hp. }
    assert (H3 : (inject_Z (round_down (x / step)) <= 0)%Q).
    { unfold Qle. cbn. lia. }
    assert (H4 : (0 <= (- inject_Z (round_down (x / step))) * step)%Q)
      by (apply Qmult_le_0_compat; lra).
    lra.
Qed.

(** X14. With a positive ticker price and step size, [market_buy] returns
    [None] without sending anything when the quote amount buys less than
    one step, and otherwise sends exactly one order for the quote amount;
    it never changes the machine, and it turns a [BinanceAPIException]
    into [None]. *)
Theorem market_buy_needs_one_lot env symbol quote_amount m info price :
  symbol_info env = Returns info ->
  symbol_ticker env = Returns price ->
  (0 < price)%Q ->
  (0 < lot_step info)%Q ->
  ((quote_amount / price < lot_step info)%Q ->
     market_buy env symbol quote_amount m = (Ok None, m, []))
  /\ ((lot_step info <= quote_amount / price)%Q ->
      orders_of (market_buy env symbol quote_amount) m
        = [Buy symbol quote_amount]
      /\ exec (market_buy env symbol quote_amount) m = m
      /\ eval (market_buy env symbol quote_amount) m
         = match buy_order env with
           | Returns order => Ok (Some order)
           | Throws BinanceAPIException => Ok None
           | Throws e => Raise e
           end).
Proof.
  intros Hinfo Hticker Hprice Hstep.
  assert (Hnz : Qeq_bool price 0 = false).
  { destruct (Qeq_bool price 0) eqn:E; [|reflexivity].
    apply Qeq_bool_iff in E. lra. }
  pose proof (lot_size_test (quote_amount / price) (lot_step info) Hstep) as Ht.
  unfold exec, eval, orders_of, market_buy, bind.
  rewrite Hinfo, Hticker. cbn [await ret fst snd]. rewrite Hnz.
  fold (lot_step info).
  split.
  - intros Hlt. apply Ht in Hlt. rewrite Hlt. reflexivity.
  - intros Hle.
    destruct (Qle_bool (inject_Z (round_down (quote_amount / price / lot_step info))
                        * lot_step info) 0) eqn:E.
    + exfalso. apply (Qlt_not_le _ _ (proj1 Ht eq_refl) Hle).
    + unfold send. cbn [fst snd].
      destruct (buy_order env) as [o|[]]; repeat split.
Qed.

Lemma market_buy_needs_one_lot_witness :
  orders_of (market_buy Run.exchange "BTCUSDT" 50) Run.watching
    = [Buy "BTCUSDT" 50]
  /\ market_buy Run.exchange "BTCUSDT" (1 # 100) Run.watching
     = (Ok None, Run.watching, []).
Proof.
  destruct (market_buy_needs_one_lot Run.exchange "BTCUSDT" 50 Run.watching
              (Some (1 # 1000)%Q) (979 # 10) eq_refl eq_refl)
    as [_ Hbig]; [reflexivity | reflexivity |].
  destruct (market_buy_needs_one_lot Run.exchange "BTCUSDT" (1 # 100)
              Run.watching (Some (1 # 1000)%Q) (979 # 10) eq_refl eq_refl)
    as [Hsmall _]; [reflexivity | reflexivity |].
  split.
  - apply Hbig. vm_compute. discriminate.
  - apply Hsmall. vm_compute. reflexivity.
Defined.

(** X15. A filled buy: with no position open, the price at or below the
    threshold, enough budget, an order that comes back with a positive
    quantity and a writable state file, [on_price] sends one buy order,
    stores the position with buy price and high-water mark at the
    average fill price, takes one trade amount from the budget, leaves
    the reference price as it is and writes the state. *)
Theorem buy_fill_opens_position m env price r info ticker order qty avg :
  positions (mem m) !! Parameters.symbol (params (mem m)) = None ->
  last_reference_price (mem m) = Some r ->
  (price <= r * (1 - Parameters.decrease_pct (params (mem m))))%Q ->
  (Parameters.tx_amount (params (mem m)) <= remaining_budget (mem m))%Q ->
  writes m = [] ->
  symbol_info env = Returns info ->
  symbol_ticker env = Returns ticker ->
  (0 < ticker)%Q -> (0 < lot_step info)%Q ->
  (lot_step info <= Parameters.tx_amount (params (mem m)) / ticker)%Q ->
  buy_order env = Returns order ->
  fill_summary order price = Ok (qty, avg) ->
  (0 < qty)%Q ->
  let sym := Parameters.symbol (params (mem m)) in
  let tx := Parameters.tx_amount (params (mem m)) in
  let st' :=
    with_remaining_budget (remaining_budget (mem m) - tx)
      (with_positions
         (<[sym := Position.mk sym qty avg avg (loop_time env)]>
            (positions (mem m)))
         (mem m)) in
  on_price env price m
  = (Ok tt, set_file (Doc (serializable st')) [] (set_mem st' m), [Buy sym tx]).
Proof.
  intros Hpos Href Hp Hb Hw Hinfo Hticker Hpr Hstep Hlot Hord Hfill Hqty
         sym tx st'.
  apply Qle_bool_iff in Hp, Hb. apply Qlt_bool_iff in Hqty.
  assert (Hnz : Qeq_bool ticker 0 = false).
  { destruct (Qeq_bool ticker 0) eqn:E; [|reflexivity].
    apply Qeq_bool_iff in E. lra. }
  assert (Hq : Qle_bool (inject_Z (round_down (tx / ticker / lot_step info))
                         * lot_step info) 0 = false).
  { destruct (Qle_bool _ 0) eqn:E; [|reflexivity].
    apply lot_size_test in E; [|exact Hstep].
    exfalso. apply (Qlt_not_le _ _ E Hlot). }
  unfold on_price, bind at 1, get_state at 1. cbn [fst snd].
  rewrite Href, Hpos, Hp, Hb.
  unfold market_buy, bind, await, send, ret, lift, modify_state, checkpoint,
    get_state, save_state.
  rewrite Hinfo, Hticker. cbn [fst snd]. rewrite Hnz.
  fold (lot_step info). fold tx. rewrite Hq. cbn [fst snd].
  rewrite Hord. cbn [fst snd]. rewrite Hfill. cbn [fst snd]. rewrite Hqty.
  unfold bind. cbn [fst snd writes set_mem mem]. rewrite Hw.
  reflexivity.
Qed.

Lemma buy_fill_opens_position_witness :
  orders_of (on_price Run.exchange (979 # 10)) Run.watching
  = [Buy "BTCUSDT" 50].
Proof.
  assert (H := buy_fill_opens_position Run.watching Run.exchange (979 # 10)
                 100 (Some (1 # 1000)%Q) (979 # 10)
                 (mkOrder [mkFill (979 # 10) (1 # 2)] (1 # 2) (4895 # 100))
                 (sum_qty [mkFill (979 # 10) (1 # 2)])
                 (sum_notional [mkFill (979 # 10) (1 # 2)]
                  / sum_qty [mkFill (979 # 10) (1 # 2)])%Q).
  unfold orders_of. rewrite H.
  - vm_compute. reflexivity.
  - vm_compute. reflexivity.
  - vm_compute. reflexivity.
  - vm_compute. discriminate.
  - vm_compute. discriminate.
  - vm_compute. reflexivity.
  - reflexivity.
  - reflexivity.
  - reflexivity.
  - reflexivity.
  - vm_compute. discriminate.
  - reflexivity.
  - reflexivity.
  - reflexivity.
Defined.

(** X16. The profit target: with a position open under its own symbol, the
    reference price set and a writable state file, a price at or above
    [buy_price * (1 + increase_pct)] sends one sell order for the full
    quantity; when the order comes back the position is removed, the
    reference price is the observed price and the budget is unchanged;
    when the exchange rejects it the position is kept with its
    high-water mark raised. *)
Theorem profit_target_sells m env price pos r :
  positions (mem m) !! Parameters.symbol (params (mem m)) = Some pos ->
  Position.symbol pos = Parameters.symbol (params (mem m)) ->
  last_reference_price (mem m) = Some r ->
  writes m = [] ->
  (Position.buy_price pos * (1 + Parameters.increase_pct (params (mem m)))
   <= price)%Q ->
  let sym := Parameters.symbol (params (mem m)) in
  let m' := exec (on_price env price) m in
  orders_of (on_price env price) m
    = [Sell sym (Position.quantity pos)]
  /\ (forall o, sell_order env = Returns o ->
        mem m' = with_last_reference_price (Some price)
                   (with_positions (delete sym (positions (mem m))) (mem m))
        /\ disk m' = Doc (serializable (mem m'))
        /\ eval (on_price env price) m = Ok tt)
  /\ (sell_order env = Throws BinanceAPIException ->
        mem m' = with_positions
                   (<[sym := Position.set_highest_price
                               (py_max (Position.highest_price pos) price) pos]>
                      (positions (mem m)))
                   (mem m)
        /\ disk m' = Doc (serializable (mem m'))
        /\ eval (on_price env price) m = Ok tt).
Proof.
  intros Hpos Hsym Href Hw Htarget sym m'. subst sym m'.
  apply Qle_bool_iff in Htarget.
  change (wp (on_price env price) m (fun res m' l =>
    l = [Sell (Parameters.symbol (params (mem m))) (Position.quantity pos)]
    /\ (forall o, sell_order env = Returns o ->
        mem m' = with_last_reference_price (Some price)
                   (with_positions
                      (delete (Parameters.symbol (params (mem m)))
                              (positions (mem m))) (mem m))
        /\ disk m' = Doc (serializable (mem m'))
        /\ res = Ok tt)
    /\ (sell_order env = Throws BinanceAPIException ->
        mem m' = with_positions
                   (<[Parameters.symbol (params (mem m)) :=
                        Position.set_highest_price
                          (py_max (Position.highest_price pos) price) pos]>
                      (positions (mem m)))
                   (mem m)
        /\ disk m' = Doc (serializable (mem m'))
        /\ res = Ok tt))).
  unfold on_price, sell_position, market_sell, del_position.
  repeat wp_step_ok Hw.
  all: cbn [mem disk set_mem set_file with_client with_price_task app
            Position.buy_price Position.highest_price Position.symbol
            Position.quantity Position.set_highest_price] in *.
  all: try congruence.
  all: repeat match goal with
       | H : Some _ = Some _ |- _ => inversion H; subst; clear H
       end.
  all: cbn [Position.buy_price Position.highest_price Position.symbol
            Position.quantity Position.set_highest_price] in *.
  all: try congruence.
  all: rewrite ?Hsym in *.
  all: cbn [positions with_positions] in *.
  all: try (rewrite lookup_insert_eq in *; discriminate).
  all: split; [reflexivity|]; split.
  all: try (intros o Ho; try discriminate Ho;
            rewrite ?delete_insert_eq; repeat split).
  all: try (intros Ho; try discriminate Ho; repeat split).

Qed.

Lemma profit_target_sells_witness :
  orders_of (on_price Run.exchange 103) Run.holding
  = [Sell (Parameters.symbol (params (mem Run.holding))) (1 # 2)].
Proof.
  refine (proj1 (profit_target_sells Run.holding Run.exchange 103
                   (Position.mk "BTCUSDT" (1 # 2) (1958 # 20) (1958 # 20)
                                "12.5") 100 _ _ _ _ _)).
  - vm_compute. reflexivity.
  - vm_compute. reflexivity.
  - vm_compute. reflexivity.
  - vm_compute. reflexivity.
  - vm_compute. discriminate.
Defined.

(** ** Reachable states, commands, start *)

(** X17. In every reachable state each position is stored under its own
    symbol, with a positive quantity and [0 <= buy_price <=
    highest_price]. *)
Theorem reachable_data_model st k pos :
  reachable st ->
  positions st !! k = Some pos ->
  Position.symbol pos = k
  /\ (0 < Position.quantity pos)%Q
  /\ (0 <= Position.buy_price pos)%Q
  /\ (Position.buy_price pos <= Position.highest_price pos)%Q.
Proof.
  intros Hr Hpos. pose proof (reachable_wf _ Hr) as Hwf.
  exact (wf_positions _ Hwf _ _ Hpos).
Qed.

Lemma upper_ascii_idempotent c : upper_ascii (upper_ascii c) = upper_ascii c.
Proof. destruct c as [[] [] [] [] [] [] [] []]; reflexivity. Qed.

Lemma upper_idempotent s : upper (upper s) = upper s.
Proof.
  induction s as [|c s IH]; [reflexivity|].
  cbn. rewrite upper_ascii_idempotent, IH. reflexivity.
Qed.

(** X18. For a symbol of ASCII characters, [setcoin] ignores the case of
    its letters: upper-casing the argument first changes nothing, the
    stored symbol is in upper case, and a second [setcoin] with the same
    argument leaves memory as the first did. *)
Theorem setcoin_ignores_case symbol m :
  setcoin (upper symbol) m = setcoin symbol m
  /\ Parameters.symbol (params (mem (exec (setcoin symbol) m)))
     = upper (Parameters.symbol (params (mem (exec (setcoin symbol) m))))
  /\ mem (exec (setcoin symbol) (exec (setcoin symbol) m))
     = mem (exec (setcoin symbol) m).
Proof.
  split; [|split].
  - unfold setcoin. rewrite upper_idempotent. reflexivity.
  - rewrite setcoin_mem. cbn. rewrite upper_idempotent. reflexivity.
  - rewrite !setcoin_mem. reflexivity.
Qed.

(** X19. Without an API key or secret (unset or empty),
    [create_binance_client] raises [RuntimeError] and [start()] changes
    nothing: the bot is not running and nothing is written. *)
Theorem start_without_keys api_key api_secret create m :
  running (mem m) = false ->
  api_key = None \/ api_key = Some "" \/ api_secret = None
    \/ api_secret = Some "" ->
  start (create_binance_client api_key api_secret create) m
  = (Raise RuntimeError, m, []).
Proof.
  intros Hrun Hkeys.
  assert (Hc : create_binance_client api_key api_secret create
               = Throws RuntimeError).
  { unfold create_binance_client.
    destruct Hkeys as [-> | [-> | [-> | ->]]];
      try reflexivity; destruct api_key as [[|? ?]|]; reflexivity. }
  rewrite Hc. unfold start, bind, get_state. rewrite Hrun. reflexivity.
Qed.


Lemma reachable_data_model_witness :
  exists pos,
    positions (mem Run.holding) !! "BTCUSDT" = Some pos
    /\ (Position.buy_price pos <= Position.highest_price pos)%Q.
Proof.
  assert (Hpos : positions (mem Run.holding) !! "BTCUSDT"
                 = Some (Position.mk "BTCUSDT" (1 # 2) (1958 # 20) (1958 # 20)
                                     "12.5"))
    by (vm_compute; reflexivity).
  eexists. split; [exact Hpos|].
  destruct (reachable_data_model _ _ _ reachable_holding Hpos)
    as (_ & _ & _ & H).
  exact H.
Defined.

Lemma start_without_keys_witness :
  start (create_binance_client (Some "key") None (Returns tt)) Run.boot
  = (Raise RuntimeError, Run.boot, []).
Proof.
  apply start_without_keys.
  - reflexivity.
  - right. right. left. reflexivity.
Defined.

(** X20. When the write in [start()] fails, [running] is already true in
    memory and the client is connected, but no monitor task has been
    created; a later [start()] then returns at once. *)
Theorem start_with_failing_write new_client m w0 w :
  running (mem m) = false ->
  writes m = w0 :: w -> w0 <> WriteOk ->
  let m' := exec (start (Returns tt)) m in
  eval (start (Returns tt)) m = Raise OSError
  /\ running (mem m') = true
  /\ price_task m' = price_task m
  /\ client m' = Some Connected
  /\ start new_client m' = (Ok tt, m', []).
Proof.
  intros Hrun Hw Hw0 m'.
  assert (H : eval (start (Returns tt)) m = Raise OSError
              /\ running (mem m') = true
              /\ price_task m' = price_task m
              /\ client m' = Some Connected).
  { subst m'. unfold eval, exec, start, bind, get_state. rewrite Hrun.
    unfold await, ret, set_client, modify_state, checkpoint, bind, get_state,
      save_state.
    cbn [fst snd writes with_client set_mem mem]. rewrite Hw.
    destruct w0; [congruence| |]; repeat split. }
  destruct H as (He & Hr & Ht & Hc).
  repeat split; try assumption.
  unfold start, bind, get_state. rewrite Hr. reflexivity.
Qed.

(** X21. Without a state file, [load_state] returns the default state
    with the whole allocated budget, writes it, and a second load reads
    the same state back. *)
Theorem load_state_first_run m w :
  disk m = NoFile ->
  writes m = [] \/ writes m = WriteOk :: w ->
  let m' := exec load_state m in
  eval load_state m = Ok fresh_state
  /\ mem m' = mem m
  /\ disk m' = Doc (serializable fresh_state)
  /\ load_state m' = (Ok fresh_state, m', []).
Proof.
  intros Hd Hw m'.
  assert (H : eval load_state m = Ok fresh_state /\ mem m' = mem m
              /\ disk m' = Doc (serializable fresh_state)).
  { subst m'. unfold eval, exec, load_state. rewrite Hd.
    unfold bind, save_state.
    destruct Hw as [-> | ->]; repeat split. }
  destruct H as (He & Hm & Hdoc).
  repeat split; try assumption.
  unfold load_state at 1. rewrite Hdoc. unfold lift.
  rewrite state_of_raw_serializable. reflexivity.
Qed.

(** X22. A state file without some keys loads with their defaults: the
    remaining budget is the allocated budget of the loaded parameters,
    [running] is false, there is no reference price, no position, and
    the parameters are the defaults. *)
Theorem load_state_defaults items st :
  state_of_raw (JObj items) = Ok st ->
  (jget "remaining_budget" items = None ->
     remaining_budget st = Parameters.allocated_budget (params st))
  /\ (jget "running" items = None -> running st = false)
  /\ (jget "last_reference_price" items = None ->
      last_reference_price st = None)
  /\ (jget "positions" items = None -> positions st = ∅)
  /\ (jget "params" items = None -> params st = Parameters.default).
Proof.
  unfold state_of_raw. cbn [as_items rbind].
  destruct (match jget "params" items with
            | Some j => as_items j | None => Ok [] end) as [pd|] eqn:Epd;
    [|discriminate].
  cbn [rbind].
  destruct (Parameters_of_dict pd) as [p|] eqn:Ep; [|discriminate].
  cbn [rbind].
  destruct (match jget "positions" items with
            | Some j => as_items j | None => Ok [] end) as [pr|] eqn:Epr;
    [|discriminate].
  cbn [rbind].
  destruct (positions_of_items pr) as [ps|] eqn:Eps; [|discriminate].
  cbn [rbind]. unfold keyword.
  destruct (match jget "remaining_budget" items with
            | Some j => as_num j | None => Ok (Parameters.allocated_budget p)
            end) as [rb|] eqn:Erb; [|discriminate].
  cbn [rbind].
  destruct (match jget "last_reference_price" items with
            | Some j => as_option_num j | None => Ok None end) as [lr|] eqn:Elr;
    [|discriminate].
  cbn [rbind].
  destruct (match jget "running" items with
            | Some j => as_bool j | None => Ok false end) as [run|] eqn:Erun;
    [|discriminate].
  cbn [rbind]. intros H. inversion H; subst; clear H. cbn.
  repeat split; intros Hn.
  - rewrite Hn in Erb. congruence.
  - rewrite Hn in Erun. congruence.
  - rewrite Hn in Elr. congruence.
  - rewrite Hn in Epr. inversion Epr; subst. cbn in Eps.
    inversion Eps. reflexivity.
  - rewrite Hn in Epd. inversion Epd; subst. cbn in Ep.
    inversion Ep. reflexivity.
Qed.

(** X23. A state file whose [params] has a key that is not a parameter is
    rejected with [TypeError]. *)
Theorem load_state_rejects_unknown_parameter items d k v :
  jget "params" items = Some (JObj d) ->
  In (k, v) d ->
  ~ In k ["symbol"; "decrease_pct"; "increase_pct"; "tx_amount";
          "allocated_budget"] ->
  state_of_raw (JObj items) = Raise TypeError.
Proof.
  intros Hp Hin Hk.
  assert (Hkk : known_keys ["symbol"; "decrease_pct"; "increase_pct";
                            "tx_amount"; "allocated_budget"] d = false).
  { unfold known_keys.
    destruct (forallb _ d) eqn:E; [|reflexivity].
    exfalso. rewrite forallb_forall in E. specialize (E _ Hin).
    cbn [fst] in E. apply existsb_exists in E as (x & Hx & Heq).
    apply String.eqb_eq in Heq. subst x. exact (Hk Hx). }
  unfold state_of_raw. cbn [as_items rbind]. rewrite Hp. cbn [as_items rbind].
  unfold Parameters_of_dict. rewrite Hkk. reflexivity.
Qed.

Lemma start_with_failing_write_witness :
  running (mem (exec (start (Returns tt)) More.first_write_fails)) = true
  /\ price_task (exec (start (Returns tt)) More.first_write_fails) = None.
Proof.
  destruct (start_with_failing_write (Returns tt) More.first_write_fails
              WriteFails [] eq_refl eq_refl ltac:(discriminate))
    as (_ & Hr & Ht & _).
  split; [exact Hr | exact Ht].
Defined.

Lemma load_state_first_run_witness :
  eval load_state Run.boot = Ok fresh_state
  /\ disk (exec load_state Run.boot) = Doc (serializable fresh_state).
Proof.
  destruct (load_state_first_run Run.boot [] eq_refl (or_introl eq_refl))
    as (He & _ & Hd & _).
  split; [exact He | exact Hd].
Defined.

(** The empty document loads as the state of a first run. *)
Lemma load_state_defaults_witness :
  state_of_raw (JObj []) = Ok fresh_state
  /\ remaining_budget fresh_state
     = Parameters.allocated_budget (params fresh_state).
Proof.
  assert (H : state_of_raw (JObj []) = Ok fresh_state) by reflexivity.
  split; [exact H|].
  exact (proj1 (load_state_defaults [] fresh_state H) eq_refl).
Defined.

Lemma load_state_rejects_unknown_parameter_witness :
  state_of_raw (JObj More.with_leverage) = Raise TypeError.
Proof.
  apply (load_state_rejects_unknown_parameter More.with_leverage
           [("symbol", JStr "ETHUSDT"); ("leverage", JNum 2)]
           "leverage" (JNum 2)).
  - reflexivity.
  - right. left. reflexivity.
  - intros H. cbn in H.
    repeat (destruct H as [H|H]; [discriminate H|]). exact H.
Defined.
